(** * A shallow embedding of [data_pipeline.py]

    The development follows the class [ProductionDataPipeline]: the retrying
    series fetcher ([_fetch_from_yfinance]), the scalar fetcher
    ([_fetch_from_fred]), the quality gate ([_validate_data_quality]), the
    batch entry point ([fetch_real_time_stock_data]), the two fallback chains
    ([get_real_time_risk_free_rate], [get_real_time_market_data]) and the
    health monitor ([system_health_check]).

    Python effects are made explicit: network calls are answered by an oracle
    indexed by the number of calls made so far, [datetime.now()] by a clock
    indexed by the number of readings, [print] appends a structured message to
    an output log, and exceptions are carried by a result type. *)

From Stdlib Require Import ZArith QArith Qabs Lqa Bool List String Ascii Lia.
From Stdlib Require Import PrimFloat Uint63.
From stdpp Require Import gmap strings pretty.

Set Warnings "-inexact-float,-clear-no-such-hyp".
Local Open Scope string_scope.
Local Open Scope list_scope.
Local Open Scope Z_scope.

(** ** Numbers

    The pipeline computes on numpy [float64] values.  The code is embedded over
    an interface of the operations it uses, with two implementations:
    [binary64], the IEEE 754 double precision numbers of the kernel (what
    Python computes, bit for bit), and [exact], rationals extended with a
    not-a-number value (the arithmetic the thresholds are specified in). *)

Class Float64 : Type := {
  float64 : Type;
  of_int : Z -> float64;                    (* int -> float conversion *)
  fdiv : float64 -> float64 -> float64;     (* a / b *)
  fsub : float64 -> float64 -> float64;     (* a - b *)
  fmul : float64 -> float64 -> float64;     (* a * b *)
  fabs : float64 -> float64;                (* abs(a) *)
  fgt : float64 -> float64 -> bool;         (* a > b *)
  fle : float64 -> float64 -> bool;         (* a <= b *)
  isnan : float64 -> bool;                  (* np.isnan / isnull *)
  nan : float64;
  lit_0_1 : float64;                        (* the literal 0.1 *)
  lit_0_5 : float64;                        (* the literal 0.5 *)
  lit_0_02 : float64                        (* the literal 0.02 *)
}.

Module Binary64.

(** Conversion of a Python int; exact below 2^53 in absolute value. *)
Definition int_to_float (z : Z) : float :=
  if z <? 0 then PrimFloat.opp (PrimFloat.of_uint63 (Uint63.of_Z (- z)))
  else PrimFloat.of_uint63 (Uint63.of_Z z).

Definition ops : Float64 := {|
  float64 := float;
  of_int := int_to_float;
  fdiv := PrimFloat.div;
  fsub := PrimFloat.sub;
  fmul := PrimFloat.mul;
  fabs := PrimFloat.abs;
  fgt := fun a b => PrimFloat.ltb b a;
  fle := PrimFloat.leb;
  isnan := PrimFloat.is_nan;
  nan := PrimFloat.nan;
  lit_0_1 := 0.1%float;
  lit_0_5 := 0.5%float;
  lit_0_02 := 0.02%float
|}.

End Binary64.

Module Exact.

(** A rational, or the not-a-number value that marks a missing cell. *)
Inductive num : Type :=
| NaN
| Val (q : Q).

Definition lift2 (f : Q -> Q -> Q) (a b : num) : num :=
  match a, b with
  | Val p, Val q => Val (f p q)
  | _, _ => NaN
  end.

(** Division by zero has no rational value; it is not-a-number here. *)
Definition div (a b : num) : num :=
  match a, b with
  | Val p, Val q => if Qeq_bool q 0 then NaN else Val (p / q)
  | _, _ => NaN
  end.

Definition abs (a : num) : num :=
  match a with
  | Val p => Val (Qabs p)
  | NaN => NaN
  end.

(** Comparisons with not-a-number are false, as in IEEE 754. *)
Definition gt (a b : num) : bool :=
  match a, b with
  | Val p, Val q => negb (Qle_bool p q)
  | _, _ => false
  end.

Definition le (a b : num) : bool :=
  match a, b with
  | Val p, Val q => Qle_bool p q
  | _, _ => false
  end.

Definition is_nan (a : num) : bool :=
  match a with
  | NaN => true
  | Val _ => false
  end.

Definition ops : Float64 := {|
  float64 := num;
  of_int := fun z => Val (inject_Z z);
  fdiv := div;
  fsub := lift2 Qminus;
  fmul := lift2 Qmult;
  fabs := abs;
  fgt := gt;
  fle := le;
  isnan := is_nan;
  nan := NaN;
  lit_0_1 := Val (1 # 10);
  lit_0_5 := Val (1 # 2);
  lit_0_02 := Val (2 # 100)
|}.

End Exact.

(** ** Exceptions *)

Inductive exn : Type :=
| ValueError (msg : string)
| KeyError (key : string)
| IndexError (msg : string)
| Exception_ (msg : string)      (* [raise Exception(...)] of the pipeline *)
| SourceError (msg : string).    (* whatever yfinance, requests or json raise *)

(** [str(e)] *)
Definition str (e : exn) : string :=
  match e with
  | ValueError m => m
  | KeyError k => "'" +:+ k +:+ "'"
  | IndexError m => m
  | Exception_ m => m
  | SourceError m => m
  end.

Inductive result (A : Type) : Type :=
| Ok (a : A)
| Raised (e : exn).
Arguments Ok {A} a.
Arguments Raised {A} e.

(** ** Strings *)

(** [needle in s] for Python strings *)
Fixpoint contains (needle s : string) : bool :=
  String.prefix needle s ||
  match s with
  | EmptyString => false
  | String _ s' => contains needle s'
  end.

(** [c] occurs in [s] *)
Fixpoint has_char (c : ascii) (s : string) : bool :=
  match s with
  | EmptyString => false
  | String a s' => Ascii.eqb a c || has_char c s'
  end.

(** [period_days.get(period, 365)] *)
Definition period_days (period : string) : Z :=
  if String.eqb period "1mo" then 30
  else if String.eqb period "3mo" then 90
  else if String.eqb period "6mo" then 180
  else if String.eqb period "1y" then 365
  else if String.eqb period "2y" then 730
  else if String.eqb period "5y" then 1825
  else 365.

Definition seconds_per_day : Z := 86400.

(** [timedelta.days]: whole days, rounded towards minus infinity *)
Definition timedelta_days (seconds : Z) : Z := seconds / seconds_per_day.

(** ** The pipeline, over any implementation of the numbers *)

Section Pipeline.

Context {FL : Float64}.

(** *** Tables

    A [DataFrame] is a list of rows in index order; a row is its timestamp
    (seconds) and its cells by column label.  Column labels are distinct, as
    in the tables a single-ticker download returns.  A missing cell holds
    [nan]. *)

Definition Series : Type := list float64.

Record DataFrame : Type := mkDataFrame {
  columns : list string;
  rows : list (Z * (string -> float64))
}.

(** [len(data)] *)
Definition len (data : DataFrame) : nat := length (rows data).

(** [data.empty]: some axis has length 0 *)
Definition empty (data : DataFrame) : bool :=
  (len data =? 0)%nat || (length (columns data) =? 0)%nat.

(** [data.index] *)
Definition index (data : DataFrame) : list Z := map fst (rows data).

(** the missing cells of one row *)
Definition row_isnull_sum (cols : list string) (r : string -> float64) : nat :=
  length (List.filter (fun c => isnan (r c)) cols).

(** [data.isnull().sum().sum()] *)
Definition isnull_sum (data : DataFrame) : nat :=
  list_sum (map (fun r => row_isnull_sum (columns data) (snd r)) (rows data)).

(** [data.dropna()]: the rows without a missing cell *)
Definition dropna (data : DataFrame) : DataFrame :=
  mkDataFrame (columns data)
    (List.filter (fun r => (row_isnull_sum (columns data) (snd r) =? 0)%nat) (rows data)).

(** [c in data.columns] *)
Definition has_column (c : string) (data : DataFrame) : bool :=
  existsb (String.eqb c) (columns data).

(** the values of [data[c]] *)
Definition column (c : string) (data : DataFrame) : Series :=
  map (fun r => snd r c) (rows data).

(** [s.dropna()] on a series *)
Definition series_dropna (s : Series) : Series :=
  List.filter (fun v => negb (isnan v)) s.

(** [s.pct_change()]: [s / s.shift(1) - 1]; the first change is [nan] *)
Definition pct_change (s : Series) : Series :=
  zip_with (fun cur prev => fsub (fdiv cur prev) (of_int 1)) s (nan :: s).

(** *** The outside world *)

Inductive query : Type :=
| Range (start_date end_date : Z)     (* start=..., end=... *)
| Period (period : string).           (* period=... *)

Inductive call : Type :=
| YfDownload (ticker : string) (q : query)
| FredGet (series_id api_key : string) (limit : nat).

(** One entry of the [observations] of a FRED answer: its ['value'] is
    absent, the sentinel ['.'], text that [float] reads as [v], or text that
    [float] refuses. *)
Inductive observation : Type :=
| NoValue
| Dot
| Number (v : float64)
| Malformed (text : string).

Record world : Type := mkWorld {
  (* the answer of [yf.download] to the n-th network call *)
  download : nat -> string -> query -> result DataFrame;
  (* the answer of [requests.get(...).json()] to the n-th network call,
     [Raised] when the request, [raise_for_status] or [json] raises;
     [data.get('observations', [])] otherwise *)
  fred_api : nat -> string -> string -> nat -> result (list observation);
  (* the n-th reading of [datetime.now()], in seconds *)
  clock : nat -> Z
}.

(** *** The report of the health monitor *)

Inductive rate_status : Type :=
| RateOk (rf_rate : float64)      (* f'{rf_rate:.4f} ({rf_rate*100:.2f}%) ✅' *)
| RateError (text : string).

Record health_report : Type := mkReport {
  timestamp : Z;
  data_sources : list (string * string);
  sample_data_quality : list (string * string) + string;
  risk_free_rate : rate_status;
  market_data : string;
  overall_status : string
}.

(** *** Printed messages, one constructor for each [print] of the source *)

Inductive msg : Type :=
| PFetching (tickers : list string)
| PFetched (ticker : string) (n : nat)
| PFetchFailed (ticker : string) (err : string)
| PFailedTickers (n : nat) (failed_tickers : list string)
| PDataOld (ticker : string) (days_old : Z)
| PRetry (k : nat) (ticker : string) (err : string)
| PRateStart
| PRateFred (rate : float64)
| PFredFailed (err : string)
| PRateIrx (rate : float64)
| PIrxFailed (err : string)
| PRateFred1M (rate : float64)
| PFred1MFailed (err : string)
| PMarketStart
| PMarketFetched (n : nat)
| PMarketFailed (err : string)
| PTryingBackup
| PBackupFetched (n : nat)
| PNoData (ticker : string)
| PInsufficient (ticker : string) (n : nat)
| PTooManyMissing (ticker : string) (missing_pct : float64)
| PNoValidCloses (ticker : string)
| PInvalidPrices (ticker : string)
| PSuspicious (ticker : string)
| PStale (ticker : string) (days_old : Z)
| PValidated (ticker : string)
| PHealthStart
| PHealthReport (report : health_report).

(** *** State and the monad of the methods *)

Record state : Type := mkState {
  calls : list call;      (* network calls made, oldest first *)
  ticks : nat;            (* clock readings made *)
  out : list msg          (* printed messages, oldest first *)
}.

Definition M (A : Type) : Type := world -> state -> result A * state.

Definition ret {A : Type} (a : A) : M A := fun _ s => (Ok a, s).

Definition raise {A : Type} (e : exn) : M A := fun _ s => (Raised e, s).

Definition bind {A B : Type} (m : M A) (k : A -> M B) : M B :=
  fun w s =>
    match m w s with
    | (Ok a, s') => k a w s'
    | (Raised e, s') => (Raised e, s')
    end.

(** [try: m except Exception as e: h e] *)
Definition try_except {A : Type} (m : M A) (h : exn -> M A) : M A :=
  fun w s =>
    match m w s with
    | (Ok a, s') => (Ok a, s')
    | (Raised e, s') => h e w s'
    end.

(** The state after [m] is printed. *)
Definition printed (s : state) (m : msg) : state :=
  mkState (calls s) (ticks s) (out s ++ [m]).

Definition print (m : msg) : M unit := fun _ s => (Ok tt, printed s m).

(** [datetime.now()] *)
Definition now : M Z :=
  fun w s => (Ok (clock w (ticks s)), mkState (calls s) (S (ticks s)) (out s)).

(** [yf.download(ticker, ...)] *)
Definition yf_download (ticker : string) (q : query) : M DataFrame :=
  fun w s =>
    (download w (length (calls s)) ticker q,
     mkState (calls s ++ [YfDownload ticker q]) (ticks s) (out s)).

(** [requests.get(url, params)], [raise_for_status], [json] and
    [data.get('observations', [])] *)
Definition fred_observations (series_id api_key : string) (limit : nat)
  : M (list observation) :=
  fun w s =>
    (fred_api w (length (calls s)) series_id api_key limit,
     mkState (calls s ++ [FredGet series_id api_key limit]) (ticks s) (out s)).

Definition lift {A : Type} (r : result A) : M A := fun _ s => (r, s).

Notation "x <- c1 ;; c2" := (bind c1 (fun x => c2))
  (at level 100, c1 at next level, right associativity).
Notation "c1 ;; c2" := (bind c1 (fun _ => c2))
  (at level 100, right associativity).

(** *** Configuration *)

Record ProductionDataPipeline : Type := mkPipeline {
  fred_api_key : option string;
  alpha_vantage_key : option string
}.

(** The truth value of a key: [None] and the empty string are false. *)
Definition configured (key : option string) : option string :=
  match key with
  | Some k => if String.eqb k "" then None else Some k
  | None => None
  end.

(** *** [_fetch_from_fred] *)

(** The loop over the observations: the first one whose value is not the
    sentinel is converted and returned. *)
Fixpoint first_observation (observations : list observation)
  : result (option float64) :=
  match observations with
  | [] => Ok None
  | NoValue :: _ => Raised (KeyError "value")
  | Dot :: rest => first_observation rest
  | Number v :: _ => Ok (Some v)
  | Malformed text :: _ =>
      Raised (ValueError ("could not convert string to float: '" +:+ text +:+ "'"))
  end.

Definition _fetch_from_fred (self : ProductionDataPipeline)
    (series_id : string) (limit : nat) : M (option float64) :=
  match configured (fred_api_key self) with
  | None => raise (ValueError "FRED API key required")
  | Some api_key =>
      observations <- fred_observations series_id api_key limit ;;
      lift (first_observation observations)
  end.

(** *** [_fetch_from_yfinance] *)

Definition max_retries : nat := 3.

(** [data.index[-1]] *)
Definition latest_index (data : DataFrame) : M Z :=
  match last (index data) with
  | Some latest_date => ret latest_date
  | None => raise (IndexError "index -1 is out of bounds for axis 0 with size 0")
  end.

(** The checks on a downloaded table: it is not empty and, once the rows with
    a missing value are dropped, at least 20 rows remain. *)
Definition clean_and_validate (ticker : string) (stock_data : DataFrame)
  : result DataFrame :=
  if empty stock_data then
    Raised (ValueError ("No data returned for " +:+ ticker))
  else
    let stock_data := dropna stock_data in
    if (len stock_data <? 20)%nat then
      Raised (ValueError ("Insufficient data points for " +:+ ticker +:+ ": "
                          +:+ pretty (len stock_data)))
    else Ok stock_data.

(** The body of the [try] of one attempt. *)
Definition download_attempt (ticker : string) (start_date end_date : Z)
  : M DataFrame :=
  stock_data <- yf_download ticker (Range start_date end_date) ;;
  stock_data <- lift (clean_and_validate ticker stock_data) ;;
  (* Check data freshness (within last week) *)
  latest_date <- latest_index stock_data ;;
  t <- now ;;
  let days_old := timedelta_days (t - latest_date) in
  (if 7 <? days_old then print (PDataOld ticker days_old) else ret tt) ;;
  ret stock_data.

(** [for attempt in range(max_retries)], entered at [attempt] with
    [retries_left = max_retries - 1 - attempt] iterations after this one, so
    that [attempt < max_retries - 1] reads [retries_left = S _]. *)
Fixpoint retry_loop (retries_left attempt : nat)
    (ticker : string) (start_date end_date : Z) : M DataFrame :=
  try_except (download_attempt ticker start_date end_date)
    (fun e =>
       match retries_left with
       | S k =>
           print (PRetry (attempt + 1) ticker (str e)) ;;
           retry_loop k (S attempt) ticker start_date end_date
       | O => raise e
       end).

Definition _fetch_from_yfinance (ticker period : string) : M DataFrame :=
  end_date <- now ;;
  let days := period_days period in
  let start_date := end_date - days * seconds_per_day in
  retry_loop (max_retries - 1) 0 ticker start_date end_date.

(** The range a fetch that starts in state [s] asks for. *)
Definition fetch_range (period : string) (w : world) (s : state) : query :=
  let end_date := clock w (ticks s) in
  Range (end_date - period_days period * seconds_per_day) end_date.

(** An answer of the series source as one attempt sees it: a table that
    fails the checks is a failure of the attempt. *)
Definition checked (ticker : string) (answer : result DataFrame)
  : result DataFrame :=
  match answer with
  | Ok stock_data => clean_and_validate ticker stock_data
  | Raised e => Raised e
  end.

(** What attempt number [i] (from 0) of a fetch that starts in state [s] gets:
    the answer of the source to that network call, checked. *)
Definition attempt_answer (ticker period : string) (w : world) (s : state)
    (i : nat) : result DataFrame :=
  checked ticker
    (download w (length (calls s) + i) ticker (fetch_range period w s)).

(** *** [_validate_data_quality] *)

(** The freshness check that ends the gate: it warns and accepts. *)
Definition check_freshness (data : DataFrame) (ticker : string) : M bool :=
  latest_date <- latest_index data ;;
  t <- now ;;
  let days_old := timedelta_days (t - latest_date) in
  (if 10 <? days_old then print (PStale ticker days_old) else ret tt) ;;
  print (PValidated ticker) ;;
  ret true.

(** [data.isnull().sum().sum() / (len(data) * len(data.columns))] *)
Definition missing_pct (data : DataFrame) : float64 :=
  fdiv (of_int (Z.of_nat (isnull_sum data)))
       (of_int (Z.of_nat (len data * length (columns data)))).

(** [(abs(returns) > 0.5).sum()] *)
Definition extreme_moves (returns : Series) : nat :=
  length (List.filter (fun r => fgt (fabs r) lit_0_5) returns).

(** The block [if 'Close' in data.columns: ...]: the message of the check
    that prints and returns [False], or [None] when the block is left
    without returning. *)
Definition price_consistency (data : DataFrame) (ticker : string) : option msg :=
  if has_column "Close" data then
    let closes := series_dropna (column "Close" data) in
    if (length closes =? 0)%nat then Some (PNoValidCloses ticker)
    else if existsb (fun c => fle c (of_int 0)) closes then
      Some (PInvalidPrices ticker)
    else
      let returns := series_dropna (pct_change closes) in
      if fgt (of_int (Z.of_nat (extreme_moves returns)))
             (fmul (of_int (Z.of_nat (length returns))) lit_0_02)
      then Some (PSuspicious ticker)
      else None
  else None.

Definition _validate_data_quality (data : option DataFrame) (ticker : string)
  : M bool :=
  match data with
  | None => print (PNoData ticker) ;; ret false
  | Some data =>
      if empty data then print (PNoData ticker) ;; ret false
      else if (len data <? 20)%nat then
        print (PInsufficient ticker (len data)) ;; ret false
      else if fgt (missing_pct data) lit_0_1 then
        print (PTooManyMissing ticker (missing_pct data)) ;; ret false
      else
        match price_consistency data ticker with
        | Some reason => print reason ;; ret false
        | None => check_freshness data ticker
        end
  end.

(** *** [fetch_real_time_stock_data] *)

(** The [tickers] argument: one string, or a list of strings. *)
Inductive tickers_arg : Type :=
| Str (ticker : string)
| Tickers (tickers : list string).

(** The body of the [try] for one ticker: fetch, validate when asked. *)
Definition fetch_validated (ticker period : string) (validate : bool)
  : M DataFrame :=
  data <- _fetch_from_yfinance ticker period ;;
  rejected <- (if validate then
                 accepted <- _validate_data_quality (Some data) ticker ;;
                 ret (negb accepted)
               else ret false) ;;
  if rejected : bool then
    raise (ValueError ("Data quality validation failed for " +:+ ticker))
  else ret data.

(** The [for ticker in tickers] loop, on [all_data] and [failed_tickers]. *)
Fixpoint fetch_loop (tickers : list string) (period : string) (validate : bool)
    (all_data : gmap string DataFrame) (failed_tickers : list string)
  : M (gmap string DataFrame * list string) :=
  match tickers with
  | [] => ret (all_data, failed_tickers)
  | ticker :: rest =>
      acc <- try_except
               (data <- fetch_validated ticker period validate ;;
                print (PFetched ticker (len data)) ;;
                ret (<[ticker := data]> all_data, failed_tickers))
               (fun e =>
                  print (PFetchFailed ticker (str e)) ;;
                  ret (all_data, failed_tickers ++ [ticker])) ;;
      fetch_loop rest period validate (fst acc) (snd acc)
  end.

Definition no_data_error : exn :=
  Exception_ "❌ CRITICAL: No data could be fetched for any ticker".

Definition fetch_real_time_stock_data (self : ProductionDataPipeline)
    (tickers : tickers_arg) (period : string) (validate : bool)
  : M (gmap string DataFrame) :=
  let tickers := match tickers with
                 | Str ticker => [ticker]
                 | Tickers l => l
                 end in
  print (PFetching tickers) ;;
  acc <- fetch_loop tickers period validate ∅ [] ;;
  let all_data := fst acc in
  let failed_tickers := snd acc in
  if (size all_data =? 0)%nat then raise no_data_error
  else
    (match failed_tickers with
     | [] => ret tt
     | _ => print (PFailedTickers (length failed_tickers) failed_tickers)
     end) ;;
    ret all_data.

(** *** [get_real_time_risk_free_rate] *)

(** [data[c]] *)
Definition getitem (c : string) (data : DataFrame) : M Series :=
  if has_column c data then ret (column c data) else raise (KeyError c).

(** [s.iloc[-1]] *)
Definition iloc_last (s : Series) : M float64 :=
  match last s with
  | Some v => ret v
  | None => raise (IndexError "single positional indexer is out-of-bounds")
  end.

(** Methods 1 and 3, a [try] block each: the FRED series [series_id].
    [Some rate] stands for [return rate]; [None] for leaving the block
    without returning. *)
Definition fred_method (self : ProductionDataPipeline) (series_id : string)
    (fetched : float64 -> msg) (failed : string -> msg) : M (option float64) :=
  try_except
    (match configured (fred_api_key self) with
     | Some _ =>
         fred_rate <- _fetch_from_fred self series_id 10 ;;
         match fred_rate with
         | Some fred_rate =>
             print (fetched fred_rate) ;;
             ret (Some (fdiv fred_rate (of_int 100)))
         | None => ret None
         end
     | None => ret None
     end)
    (fun e => print (failed (str e)) ;; ret None).

(** Method 2: the last close of [^IRX] over five days. *)
Definition irx_method : M (option float64) :=
  try_except
    (irx_data <- yf_download "^IRX" (Period "5d") ;;
     if negb (empty irx_data) then
       closes <- getitem "Close" irx_data ;;
       latest_rate <- iloc_last closes ;;
       if negb (isnan latest_rate) && fgt latest_rate (of_int 0) then
         print (PRateIrx latest_rate) ;;
         ret (Some (fdiv latest_rate (of_int 100)))
       else ret None
     else ret None)
    (fun e => print (PIrxFailed (str e)) ;; ret None).

Definition no_rate_error : exn :=
  Exception_ "❌ CRITICAL: Unable to fetch real-time risk-free rate from any source".

Definition get_real_time_risk_free_rate (self : ProductionDataPipeline)
  : M float64 :=
  print PRateStart ;;
  returned <- fred_method self "DGS3MO" PRateFred PFredFailed ;;
  match returned with
  | Some rate => ret rate
  | None =>
      returned <- irx_method ;;
      match returned with
      | Some rate => ret rate
      | None =>
          returned <- fred_method self "DGS1MO" PRateFred1M PFred1MFailed ;;
          match returned with
          | Some rate => ret rate
          | None => raise no_rate_error
          end
      end
  end.

(** **** The chain as the specification words it

    A strategy makes at most one network call and may yield a usable value
    from the answer to it; [resolve_scalar] walks a chain of strategies in
    order, stops at the first usable value and scales it from percentage
    points to a fraction. *)

Record strategy : Type := mkStrategy {
  network_call : option call;
  (* the value the strategy gets when its call is network call number [n] *)
  usable_value : nat -> option float64
}.

(** The value that [fred_method] finds in the answer to network call [n]. *)
Definition fred_value (w : world) (series_id api_key : string) (n : nat)
  : option float64 :=
  match fred_api w n series_id api_key 10 with
  | Ok observations =>
      match first_observation observations with
      | Ok (Some v) => Some v
      | _ => None
      end
  | Raised _ => None
  end.

(** The value that [irx_method] finds in the answer to network call [n]. *)
Definition irx_value (w : world) (n : nat) : option float64 :=
  match download w n "^IRX" (Period "5d") with
  | Ok irx_data =>
      if empty irx_data then None
      else if has_column "Close" irx_data then
        match last (column "Close" irx_data) with
        | Some latest_rate =>
            if negb (isnan latest_rate) && fgt latest_rate (of_int 0)
            then Some latest_rate else None
        | None => None
        end
      else None
  | Raised _ => None
  end.

(** Without a credential a FRED strategy makes no call and yields nothing. *)
Definition fred_strategy (self : ProductionDataPipeline) (w : world)
    (series_id : string) : strategy :=
  match configured (fred_api_key self) with
  | Some api_key =>
      mkStrategy (Some (FredGet series_id api_key 10)) (fred_value w series_id api_key)
  | None => mkStrategy None (fun _ => None)
  end.

Definition irx_strategy (w : world) : strategy :=
  mkStrategy (Some (YfDownload "^IRX" (Period "5d"))) (irx_value w).

Definition rate_chain (self : ProductionDataPipeline) (w : world) : list strategy :=
  [fred_strategy self w "DGS3MO"; irx_strategy w; fred_strategy self w "DGS1MO"].

(** The outcome of the chain and the network calls made, given the calls
    [made] before. *)
Fixpoint resolve_scalar (chain : list strategy) (made : list call)
  : result float64 * list call :=
  match chain with
  | [] => (Raised no_rate_error, made)
  | st :: rest =>
      let made' := made ++ option_list (network_call st) in
      match usable_value st (length made) with
      | Some v => (Ok (fdiv v (of_int 100)), made')
      | None => resolve_scalar rest made'
      end
  end.

(** *** [get_real_time_market_data] *)

Definition get_real_time_market_data (self : ProductionDataPipeline)
    (period : string) : M Series :=
  print PMarketStart ;;
  try_except
    (market_data <- _fetch_from_yfinance "^GSPC" period ;;
     if (len market_data <? 50)%nat then
       raise (ValueError ("Insufficient market data: " +:+ pretty (len market_data)
                          +:+ " observations"))
     else
       closes <- getitem "Close" market_data ;;
       let returns := series_dropna (pct_change closes) in
       print (PMarketFetched (length returns)) ;;
       ret returns)
    (fun e =>
       print (PMarketFailed (str e)) ;;
       try_except
         (print PTryingBackup ;;
          vti_data <- _fetch_from_yfinance "VTI" period ;;
          closes <- getitem "Close" vti_data ;;
          let returns := series_dropna (pct_change closes) in
          print (PBackupFetched (length returns)) ;;
          ret returns)
         (fun backup_error =>
            raise (Exception_ ("❌ CRITICAL: All market data sources failed. Primary: "
                               +:+ str e +:+ ", Backup: " +:+ str backup_error)))).

(** *** [system_health_check] *)

Definition healthy : string := "HEALTHY ✅".
Definition no_data : string := "NO DATA ❌".
Definition no_api_key : string := "NO API KEY ⚠️".
Definition limited_data : string := "LIMITED DATA ⚠️".
Definition failed : string := "FAILED ❌".
Definition degraded : string := "DEGRADED ⚠️".
Definition critical : string := "CRITICAL ❌".

(** [f'ERROR: {str(e)} ❌'] *)
Definition error_status (e : exn) : string := "ERROR: " +:+ str e +:+ " ❌".

Definition sample_tickers : list string := ["AAPL"; "MSFT"; "GOOGL"].

(** The status of one probe ticker in the fetched sample. *)
Definition sample_quality (sample_data : gmap string DataFrame) (ticker : string)
  : string :=
  match sample_data !! ticker with
  | Some data => if (15 <? len data)%nat then healthy else limited_data
  | None => failed
  end.

(** [sum(1 for status in data_sources.values() if 'HEALTHY' in status)] *)
Definition healthy_sources (data_sources : list (string * string)) : nat :=
  length (List.filter (fun kv => contains "HEALTHY" (snd kv)) data_sources).

Definition overall (data_sources : list (string * string)) : string :=
  let total_sources := length data_sources in
  if (healthy_sources data_sources =? total_sources)%nat then healthy
  else if (0 <? healthy_sources data_sources)%nat then degraded
  else critical.

(** The five [try] blocks of the check, each rendering its outcome. *)

(** Test yfinance *)
Definition test_yfinance : M string :=
  try_except
    (test_data <- yf_download "AAPL" (Period "5d") ;;
     if negb (empty test_data) then ret healthy else ret no_data)
    (fun e => ret (error_status e)).

(** Test FRED (if API key available) *)
Definition test_fred (self : ProductionDataPipeline) : M string :=
  match configured (fred_api_key self) with
  | Some _ =>
      try_except
        (fred_test <- _fetch_from_fred self "DGS3MO" 1 ;;
         match fred_test with
         | Some _ => ret healthy
         | None => ret no_data
         end)
        (fun e => ret (error_status e))
  | None => ret no_api_key
  end.

(** Test risk-free rate *)
Definition test_risk_free_rate (self : ProductionDataPipeline) : M rate_status :=
  try_except
    (rf_rate <- get_real_time_risk_free_rate self ;;
     ret (RateOk rf_rate))
    (fun e => ret (RateError (error_status e))).

(** Test market data *)
Definition test_market_data (self : ProductionDataPipeline) : M string :=
  try_except
    (market_returns <- get_real_time_market_data self "1mo" ;;
     ret (pretty (length market_returns) +:+ " returns ✅"))
    (fun e => ret (error_status e)).

(** Test sample portfolio data *)
Definition test_sample_data (self : ProductionDataPipeline)
  : M (list (string * string) + string) :=
  try_except
    (sample_data <- fetch_real_time_stock_data self (Tickers sample_tickers)
                      "1mo" true ;;
     ret (inl (map (fun ticker => (ticker, sample_quality sample_data ticker))
                   sample_tickers)))
    (fun e => ret (inr (error_status e))).

Definition system_health_check (self : ProductionDataPipeline) : M health_report :=
  print PHealthStart ;;
  timestamp <- now ;;
  yfinance <- test_yfinance ;;
  fred <- test_fred self ;;
  let data_sources := [("yfinance", yfinance); ("fred", fred)] in
  risk_free_rate <- test_risk_free_rate self ;;
  market_data <- test_market_data self ;;
  sample_data_quality <- test_sample_data self ;;
  (* Determine overall status *)
  let report := mkReport timestamp data_sources sample_data_quality
                  risk_free_rate market_data (overall data_sources) in
  print (PHealthReport report) ;;
  ret report.

(** **** What each probe of the data sources renders

    [n] is the number of the network call the probe makes. *)

Definition yfinance_status (w : world) (n : nat) : string :=
  match download w n "AAPL" (Period "5d") with
  | Ok test_data => if negb (empty test_data) then healthy else no_data
  | Raised e => error_status e
  end.

Definition fred_status (self : ProductionDataPipeline) (w : world) (n : nat)
  : string :=
  match configured (fred_api_key self) with
  | None => no_api_key
  | Some api_key =>
      match fred_api w n "DGS3MO" api_key 1 with
      | Ok observations =>
          match first_observation observations with
          | Ok (Some _) => healthy
          | Ok None => no_data
          | Raised e => error_status e
          end
      | Raised e => error_status e
      end
  end.

(** The probe of the series source succeeded: a table that is not empty. *)
Definition yfinance_probe_ok (w : world) (n : nat) : bool :=
  match download w n "AAPL" (Period "5d") with
  | Ok test_data => negb (empty test_data)
  | Raised _ => false
  end.

(** The probe of the economic-data source was made and found a value. *)
Definition fred_probe_ok (self : ProductionDataPipeline) (w : world) (n : nat)
  : bool :=
  match configured (fred_api_key self) with
  | None => false
  | Some api_key =>
      match fred_api w n "DGS3MO" api_key 1 with
      | Ok observations =>
          match first_observation observations with
          | Ok (Some _) => true
          | _ => false
          end
      | Raised _ => false
      end
  end.

(** The failure of a probe, when it raised. *)
Definition yfinance_probe_error (w : world) (n : nat) : option exn :=
  match download w n "AAPL" (Period "5d") with
  | Ok _ => None
  | Raised e => Some e
  end.

Definition fred_probe_error (self : ProductionDataPipeline) (w : world) (n : nat)
  : option exn :=
  match configured (fred_api_key self) with
  | None => None
  | Some api_key =>
      match fred_api w n "DGS3MO" api_key 1 with
      | Ok observations =>
          match first_observation observations with
          | Ok _ => None
          | Raised e => Some e
          end
      | Raised e => Some e
      end
  end.

(** The message of a failure does not hold the text HEALTHY. *)
Definition plain (failure : option exn) : Prop :=
  match failure with
  | Some e => contains "HEALTHY" (str e) = false
  | None => True
  end.

End Pipeline.

(** ** Sample tables and worlds

    They are written over the numeric interface, so that each can be read as a
    table of doubles or of exact numbers. *)

Section Samples.

Context {FL : Float64}.

Definition day (i : nat) : Z := Z.of_nat i * seconds_per_day.

Definition ohlcv : list string := ["Open"; "High"; "Low"; "Close"; "Volume"].

(** [n] daily rows; every field of day [i] holds [price i]. *)
Definition price_table (n : nat) (price : nat -> float64) : DataFrame :=
  mkDataFrame ohlcv (map (fun i => (day i, fun _ : string => price i)) (seq 0 n)).

Definition flat_table (n : nat) : DataFrame :=
  price_table n (fun _ => of_int 100).






Definition no_fred : nat -> string -> string -> nat -> result (list observation) :=
  fun _ _ _ _ => Raised (SourceError "connection refused").

Definition sample_clock : nat -> Z := fun _ => day 26.

(** Every ticker has 25 good rows, except BBB which has 5. *)
Definition batch_world : world :=
  mkWorld
    (fun _ ticker _ =>
       if String.eqb ticker "BBB" then Ok (flat_table 5) else Ok (flat_table 25))
    no_fred sample_clock.

(** The series source times out on its first [failures] calls. *)
Definition flaky_world (failures : nat) : world :=
  mkWorld
    (fun n _ _ =>
       if (n <? failures)%nat then Raised (SourceError "timeout")
       else Ok (flat_table 25))
    no_fred sample_clock.

(** Every download shows a last close of 4.5. *)
Definition irx_world : world :=
  mkWorld
    (fun _ _ _ => Ok (price_table 3 (fun _ => fdiv (of_int 45) (of_int 10))))
    no_fred sample_clock.

(** The economic-data source answers with [observations]; the series source
    is down. *)
Definition fred_world (observations : list observation) : world :=
  mkWorld
    (fun _ _ _ => Raised (SourceError "timeout"))
    (fun _ _ _ _ => Ok observations)
    sample_clock.

(** The series source is down, and says so with a message that holds the
    text HEALTHY. *)
Definition shouting_world : world :=
  mkWorld
    (fun _ _ _ => Raised (SourceError "upstream says HEALTHY but sent nothing"))
    no_fred sample_clock.

Definition start : state := mkState [] 0 [].

Definition no_keys : ProductionDataPipeline := mkPipeline None None.

Definition with_fred_key : ProductionDataPipeline := mkPipeline (Some "KEY") None.

End Samples.

(** ** The thresholds as the specification words them, in exact arithmetic *)






(** ** The module-level pipeline and its convenience functions *)

Section Conveniences.

Context {FL : Float64}.

(** [production_pipeline = ProductionDataPipeline()]: no key is given. *)
Definition production_pipeline : ProductionDataPipeline := mkPipeline None None.

Definition get_real_time_data (tickers : tickers_arg) (period : string)
    (validate : bool) : M (gmap string DataFrame) :=
  fetch_real_time_stock_data production_pipeline tickers period validate.

Definition get_risk_free_rate : M float64 :=
  get_real_time_risk_free_rate production_pipeline.

Definition get_market_data (period : string) : M Series :=
  get_real_time_market_data production_pipeline period.

Definition run_health_check : M health_report :=
  system_health_check production_pipeline.

End Conveniences.

(** ** Notions used to state the further properties *)

Section Notions.

Context {FL : Float64}.

(** None of the checks of the gate that reject is triggered by [data]. *)
Definition passes_hard_checks (data : DataFrame) (ticker : string) : Prop :=
  empty data = false
  /\ (20 <= len data)%nat
  /\ fgt (missing_pct data) lit_0_1 = false
  /\ price_consistency data ticker = None.

(** The messages with which the gate rejects [data]. *)
Definition rejection_reasons (data : DataFrame) (ticker : string) : list msg :=
  [PNoData ticker; PInsufficient ticker (len data);
   PTooManyMissing ticker (missing_pct data); PNoValidCloses ticker;
   PInvalidPrices ticker; PSuspicious ticker].

(** The staleness warning of a table whose last row is [latest], read at
    clock value [t], with the threshold [limit] in days. *)
Definition age_warning (limit t latest : Z) (warning : Z -> msg) : list msg :=
  let days_old := timedelta_days (t - latest) in
  if limit <? days_old then [warning days_old] else [].

(** A table without a missing cell and with at least 20 rows. *)
Definition complete (data : DataFrame) : Prop :=
  (20 <= len data)%nat /\ isnull_sum data = 0%nat.


(** The returns that [get_real_time_market_data] computes from a table:
    the percentage changes of its closes, the missing ones dropped. *)
Definition close_returns (data : DataFrame) : Series :=
  series_dropna (pct_change (column "Close" data)).

(** The message with which a benchmark table of [n] rows is turned down. *)
Definition insufficient_market_data (n : nat) : string :=
  "Insufficient market data: " +:+ pretty n +:+ " observations".

(** The downloads of [ticker] over the range [q], [k] times. *)
Definition downloads (ticker : string) (q : query) (k : nat) : list call :=
  repeat (YfDownload ticker q) k.

End Notions.

(** ** Further sample tables and worlds *)

Section MoreSamples.

Context {FL : Float64}.

(** 25 flat rows, except a close of 0 on day 3. *)
Definition zero_close_table : DataFrame :=
  mkDataFrame ohlcv
    (map (fun i => (day i,
                    fun c : string =>
                      if String.eqb c "Close" && (i =? 3)%nat then of_int 0
                      else of_int 100))
         (seq 0 25)).

(** 25 rows of negative numbers under labels that are not [Close]. *)
Definition no_close_table : DataFrame :=
  mkDataFrame ["Open"; "Adj Close"]
    (map (fun i => (day i, fun _ : string => of_int (-5))) (seq 0 25)).

(** The series source answers every call with 25 good rows. *)
Definition steady_world : world := flaky_world 0.

(** The series source raises on every call. *)
Definition down_world : world := fred_world [].

(** The series source answers every call with a table without rows. *)
Definition empty_answers_world : world :=
  mkWorld (fun _ _ _ => Ok (mkDataFrame ohlcv [])) no_fred sample_clock.

(** As [steady_world], read 16 days after the last row. *)
Definition late_world : world :=
  mkWorld (fun _ _ _ => Ok (flat_table 25)) no_fred (fun _ => day 40).

End MoreSamples.

(** ** Properties that hold for every implementation of the numbers *)

Section Generic.

Context {FL : Float64}.

Lemma last_index_some (data : DataFrame) :
  (0 < len data)%nat -> exists t, last (index data) = Some t.
Proof.
  unfold index, len. destruct (rows data) as [|r rws]; simpl; [lia|].
  intros _. revert r. induction rws as [|r' rws IH]; intros r.
  - exists (fst r). reflexivity.
  - destruct (IH r') as [t Ht]. exists t. exact Ht.
Qed.

Lemma latest_index_nonempty (data : DataFrame) :
  empty data = false -> exists t, last (index data) = Some t.
Proof.
  intros Hne. apply last_index_some. unfold empty in Hne.
  destruct (len data); [discriminate|lia].
Qed.

(** The freshness check reads the clock once, may warn, and accepts. *)
Lemma check_freshness_accepts (data : DataFrame) (ticker : string) w s :
  empty data = false ->
  exists warnings,
    check_freshness data ticker w s
    = (Ok true, mkState (calls s) (S (ticks s))
                  (out s ++ warnings ++ [PValidated ticker])).
Proof.
  intros Hne. destruct (latest_index_nonempty data Hne) as [t Ht].
  unfold check_freshness, latest_index, bind, now, ret, print, printed.
  rewrite Ht. simpl.
  destruct (10 <? _); simpl.
  - eexists [_]. rewrite <- app_assoc. reflexivity.
  - exists []. reflexivity.
Qed.

(** The gate never raises, and its verdict is decided by the table alone:
    neither the world, the clock nor the state has a say. *)
Lemma gate_verdict_pure (data : option DataFrame) (ticker : string) :
  exists verdict : bool,
    forall w s,
      fst (_validate_data_quality data ticker w s) = Ok verdict
      /\ calls (snd (_validate_data_quality data ticker w s)) = calls s.
Proof.
  destruct data as [data|]; [|exists false; intros; split; reflexivity].
  unfold _validate_data_quality.
  destruct (empty data) eqn:Hempty; [exists false; intros; split; reflexivity|].
  destruct (len data <? 20)%nat; [exists false; intros; split; reflexivity|].
  destruct (fgt (missing_pct data) lit_0_1);
    [exists false; intros; split; reflexivity|].
  destruct (price_consistency data ticker);
    [exists false; intros; split; reflexivity|].
  exists true. intros w s.
  destruct (check_freshness_accepts data ticker w s Hempty) as [ws ->].
  split; reflexivity.
Qed.

Lemma fetch_loop_step ticker rest period validate
    (all_data : gmap string DataFrame) failed_tickers w s :
  fetch_loop (ticker :: rest) period validate all_data failed_tickers w s
  = match fetch_validated ticker period validate w s with
    | (Ok data, s1) =>
        fetch_loop rest period validate (<[ticker := data]> all_data) failed_tickers
          w (printed s1 (PFetched ticker (len data)))
    | (Raised e, s1) =>
        fetch_loop rest period validate all_data (failed_tickers ++ [ticker])
          w (printed s1 (PFetchFailed ticker (str e)))
    end.
Proof.
  simpl. unfold bind at 1. unfold try_except, bind at 1.
  destruct (fetch_validated ticker period validate w s) as [[data|e] s1];
    reflexivity.
Qed.

(** The loop never raises: each identifier ends as a key of [all_data] or as
    an entry of [failed_tickers], and the loop goes on to the next one. *)
Lemma fetch_loop_total tickers period validate :
  forall (all_data : gmap string DataFrame) failed_tickers w s,
  exists all_data' newly_failed s',
    fetch_loop tickers period validate all_data failed_tickers w s
    = (Ok (all_data', failed_tickers ++ newly_failed), s')
    /\ newly_failed `sublist_of` tickers
    /\ dom all_data' ⊆ dom all_data ∪ list_to_set tickers
    /\ dom all_data ⊆ dom all_data'
    /\ (forall t, t ∈ tickers -> t ∈ dom all_data' \/ t ∈ newly_failed).
Proof.
  induction tickers as [|ticker rest IH]; intros all_data failed_tickers w s.
  - exists all_data, [], s. simpl. rewrite app_nil_r.
    split; [reflexivity|]. split; [reflexivity|]. split; [set_solver|].
    split; [set_solver|]. intros t Ht. set_solver.
  - rewrite fetch_loop_step.
    destruct (fetch_validated ticker period validate w s) as [[data|e] s1].
    + destruct (IH (<[ticker := data]> all_data) failed_tickers w
                  (printed s1 (PFetched ticker (len data))))
        as (m & g & s' & Hrun & Hsub & Hdom & Hmono & Hall).
      exists m, g, s'. rewrite dom_insert in Hdom, Hmono.
      split; [exact Hrun|]. split; [by apply sublist_cons|].
      split; [set_solver|]. split; [set_solver|].
      intros t Ht. apply elem_of_cons in Ht as [->|Ht]; [left; set_solver|auto].
    + destruct (IH all_data (failed_tickers ++ [ticker]) w
                  (printed s1 (PFetchFailed ticker (str e))))
        as (m & g & s' & Hrun & Hsub & Hdom & Hmono & Hall).
      exists m, (ticker :: g), s'. rewrite <- app_assoc in Hrun.
      split; [exact Hrun|]. split; [by apply sublist_skip|].
      split; [set_solver|]. split; [set_solver|].
      intros t Ht. apply elem_of_cons in Ht as [->|Ht]; [right; set_solver|].
      destruct (Hall t Ht); [left|right]; set_solver.
Qed.

(** What the entry point makes of the outcome of its loop. *)
Lemma fetch_after_loop self tickers period validate w s :
  fetch_real_time_stock_data self (Tickers tickers) period validate w s
  = match fetch_loop tickers period validate ∅ [] w (printed s (PFetching tickers)) with
    | (Ok (all_data, failed_tickers), s') =>
        if (size all_data =? 0)%nat then (Raised no_data_error, s')
        else (Ok all_data,
              match failed_tickers with
              | [] => s'
              | _ => printed s' (PFailedTickers (length failed_tickers) failed_tickers)
              end)
    | (Raised e, s') => (Raised e, s')
    end.
Proof.
  unfold fetch_real_time_stock_data, bind at 1. unfold print at 1. unfold bind at 1.
  destruct (fetch_loop tickers period validate ∅ [] w (printed s (PFetching tickers)))
    as [[[all_data failed_tickers]|e] s']; [|reflexivity].
  simpl. destruct (size all_data =? 0)%nat; [reflexivity|].
  destruct failed_tickers; reflexivity.
Qed.

(** C1, as the code has it. The batch entry point handles each identifier on
    its own: its loop never raises, and every identifier ends as a key of the
    accepted mapping or in the list of failed identifiers, in input order.  When
    the accepted mapping is empty the call raises the no-data error; otherwise
    the call succeeds and returns the accepted mapping only: the failed
    identifiers are printed in a closing warning and are not part of the
    returned value.  For the identifiers AAA, BBB, CCC where AAA and CCC are
    fetched and BBB fails, the returned mapping holds exactly the 2 entries of
    AAA and CCC and the printed list of failures is [BBB]. *)
Theorem batch_partial_success :
  (forall self (tickers : list string) period validate w s,
     exists (all_data : gmap string DataFrame) failed_tickers s',
       fetch_loop tickers period validate ∅ [] w (printed s (PFetching tickers))
       = (Ok (all_data, failed_tickers), s')
       /\ failed_tickers `sublist_of` tickers
       /\ dom all_data ⊆ list_to_set tickers
       /\ (forall t, t ∈ tickers -> t ∈ dom all_data \/ t ∈ failed_tickers)
       /\ (all_data = ∅ ->
           fetch_real_time_stock_data self (Tickers tickers) period validate w s
           = (Raised no_data_error, s'))
       /\ (all_data <> ∅ ->
           fetch_real_time_stock_data self (Tickers tickers) period validate w s
           = (Ok all_data,
              match failed_tickers with
              | [] => s'
              | _ => printed s' (PFailedTickers (length failed_tickers) failed_tickers)
              end)))
  /\ (forall self period validate w s d1 s1 e s2 d3 s3,
        let tickers := ["AAA"; "BBB"; "CCC"] in
        fetch_validated "AAA" period validate w (printed s (PFetching tickers))
        = (Ok d1, s1) ->
        fetch_validated "BBB" period validate w (printed s1 (PFetched "AAA" (len d1)))
        = (Raised e, s2) ->
        fetch_validated "CCC" period validate w (printed s2 (PFetchFailed "BBB" (str e)))
        = (Ok d3, s3) ->
        fetch_real_time_stock_data self (Tickers tickers) period validate w s
        = (Ok (<["CCC" := d3]> (<["AAA" := d1]> ∅)),
           printed (printed s3 (PFetched "CCC" (len d3))) (PFailedTickers 1 ["BBB"]))
        /\ size (<["CCC" := d3]> (<["AAA" := d1]> (∅ : gmap string DataFrame)))
           = 2%nat).
Proof.
  split.
  - intros self tickers period validate w s.
    destruct (fetch_loop_total tickers period validate ∅ [] w
                (printed s (PFetching tickers)))
      as (m & g & s' & Hrun & Hsub & Hdom & _ & Hall).
    exists m, g, s'. simpl in Hrun.
    split; [exact Hrun|]. split; [exact Hsub|]. split; [set_solver|].
    split; [exact Hall|].
    rewrite fetch_after_loop, Hrun. split.
    + intros ->. rewrite map_size_empty. reflexivity.
    + intros Hne. apply map_size_non_empty_iff in Hne.
      destruct (size m); [congruence|reflexivity].
  - intros self period validate w s d1 s1 e s2 d3 s3 tickers H1 H2 H3.
    assert (Hsize : size (<["CCC" := d3]> (<["AAA" := d1]> (∅ : gmap string DataFrame)))
                    = 2%nat).
    { rewrite map_size_insert_None.
      - rewrite map_size_insert_None; [reflexivity|apply lookup_empty].
      - rewrite lookup_insert_ne; [apply lookup_empty|discriminate]. }
    split; [|exact Hsize].
    rewrite fetch_after_loop. subst tickers.
    rewrite fetch_loop_step, H1, fetch_loop_step, H2, fetch_loop_step, H3.
    simpl. rewrite Hsize. reflexivity.
Qed.

(** C10. A single identifier given as a string is handled as the list of that
    one identifier: both calls give the same result and leave the same state,
    and a returned mapping has that identifier as its only key. *)
Theorem single_ticker_as_list self (ticker period : string) validate w s :
  fetch_real_time_stock_data self (Str ticker) period validate w s
  = fetch_real_time_stock_data self (Tickers [ticker]) period validate w s
  /\ (forall all_data,
        fst (fetch_real_time_stock_data self (Str ticker) period validate w s)
        = Ok all_data ->
        exists data, all_data = {[ticker := data]}).
Proof.
  split; [reflexivity|].
  change (fetch_real_time_stock_data self (Str ticker) period validate w s)
    with (fetch_real_time_stock_data self (Tickers [ticker]) period validate w s).
  rewrite fetch_after_loop, fetch_loop_step.
  destruct (fetch_validated ticker period validate w _) as [[data|e] s1]; simpl.
  - intros all_data Hres. exists data.
    destruct (size (<[ticker := data]> (∅ : gmap string DataFrame)) =? 0)%nat;
      simpl in Hres; [discriminate|]. injection Hres as <-. reflexivity.
  - intros all_data Hres. rewrite map_size_empty in Hres. discriminate.
Qed.

(** One attempt: it makes one network call; a failure leaves the clock and the
    output as they were, a success reads the clock once and may warn. *)
Lemma download_attempt_run ticker start_date end_date w s :
  exists warnings,
    download_attempt ticker start_date end_date w s
    = let c := YfDownload ticker (Range start_date end_date) in
      match checked ticker
              (download w (length (calls s)) ticker (Range start_date end_date))
      with
      | Ok data =>
          (Ok data, mkState (calls s ++ [c]) (S (ticks s)) (out s ++ warnings))
      | Raised e => (Raised e, mkState (calls s ++ [c]) (ticks s) (out s))
      end.
Proof.
  unfold download_attempt, checked. unfold bind at 1. unfold yf_download at 1.
  destruct (download w (length (calls s)) ticker (Range start_date end_date))
    as [stock_data|e]; [|exists []; reflexivity].
  unfold bind at 1. unfold lift at 1.
  destruct (clean_and_validate ticker stock_data) as [data|e] eqn:Hclean;
    [|exists []; reflexivity].
  assert (Hlen : (0 < len data)%nat).
  { unfold clean_and_validate in Hclean.
    destruct (empty stock_data); [discriminate|].
    destruct (len (dropna stock_data) <? 20)%nat eqn:Hlt; [discriminate|].
    injection Hclean as <-. apply Nat.ltb_ge in Hlt. lia. }
  destruct (last_index_some data Hlen) as [t Ht].
  unfold bind, latest_index, now, ret, print, printed. rewrite Ht. simpl.
  destruct (7 <? _); simpl.
  - eexists [_]. reflexivity.
  - exists []. rewrite app_nil_r. reflexivity.
Qed.

(** The three attempts of a fetch, unrolled: the first answer that passes the
    checks is returned; when none does, the third failure is raised as it is. *)
Lemma fetch_unrolled ticker period w s :
  exists warnings,
    _fetch_from_yfinance ticker period w s
    = let c := YfDownload ticker (fetch_range period w s) in
      let retry k e := PRetry k ticker (str e) in
      match attempt_answer ticker period w s 0 with
      | Ok data =>
          (Ok data,
           mkState (calls s ++ [c]) (S (S (ticks s))) (out s ++ warnings))
      | Raised e1 =>
          match attempt_answer ticker period w s 1 with
          | Ok data =>
              (Ok data,
               mkState (calls s ++ [c; c]) (S (S (ticks s)))
                 (out s ++ retry 1%nat e1 :: warnings))
          | Raised e2 =>
              match attempt_answer ticker period w s 2 with
              | Ok data =>
                  (Ok data,
                   mkState (calls s ++ [c; c; c]) (S (S (ticks s)))
                     (out s ++ retry 1%nat e1 :: retry 2%nat e2 :: warnings))
              | Raised e3 =>
                  (Raised e3,
                   mkState (calls s ++ [c; c; c]) (S (ticks s))
                     (out s ++ [retry 1%nat e1; retry 2%nat e2]))
              end
          end
      end.
Proof.
  unfold attempt_answer, fetch_range, _fetch_from_yfinance.
  unfold bind at 1. unfold now at 1. cbv zeta.
  change (max_retries - 1)%nat with 2%nat.
  set (sd := clock w (ticks s) - period_days period * seconds_per_day).
  set (ed := clock w (ticks s)).
  set (c := YfDownload ticker (Range sd ed)).
  set (s0 := mkState (calls s) (S (ticks s)) (out s)).
  destruct (download_attempt_run ticker sd ed w s0) as [ws0 A0].
  cbv zeta in A0. fold c in A0. simpl in A0.
  rewrite Nat.add_0_r.
  simpl retry_loop. unfold try_except at 1. rewrite A0. clear A0.
  destruct (checked ticker (download w (length (calls s)) ticker (Range sd ed)))
    as [data|e1]; [exists ws0; reflexivity|].
  unfold bind at 1. unfold print at 1. unfold try_except at 1.
  set (s1 := printed _ _).
  destruct (download_attempt_run ticker sd ed w s1) as [ws1 A1].
  cbv zeta in A1. fold c in A1. simpl in A1. rewrite length_app in A1.
  simpl in A1. rewrite A1. clear A1.
  destruct (checked ticker
              (download w (length (calls s) + 1) ticker (Range sd ed)))
    as [data|e2]; [exists ws1; rewrite <- !app_assoc; reflexivity|].
  unfold bind at 1. unfold print at 1. unfold try_except at 1.
  set (s2 := printed _ _).
  destruct (download_attempt_run ticker sd ed w s2) as [ws2 A2].
  cbv zeta in A2. fold c in A2. simpl in A2. rewrite !length_app in A2.
  simpl in A2.
  replace (length (calls s) + 1 + 1)%nat with (length (calls s) + 2)%nat in A2
    by lia.
  rewrite A2. clear A2.
  destruct (checked ticker
              (download w (length (calls s) + 2) ticker (Range sd ed)))
    as [data|e3].
  - exists ws2. rewrite <- !app_assoc. reflexivity.
  - exists []. unfold raise. rewrite <- !app_assoc. reflexivity.
Qed.

(** An attempt succeeds exactly on a table that is not empty and keeps at
    least 20 rows once the rows with a missing value are dropped; the attempt
    then yields the table without those rows. *)
Lemma checked_ok ticker answer data :
  checked ticker answer = Ok data
  <-> exists stock_data,
        answer = Ok stock_data /\ empty stock_data = false
        /\ (20 <= len (dropna stock_data))%nat /\ data = dropna stock_data.
Proof.
  unfold checked, clean_and_validate. split.
  - destruct answer as [stock_data|e]; [|discriminate].
    destruct (empty stock_data) eqn:He; [discriminate|].
    destruct (len (dropna stock_data) <? 20)%nat eqn:Hl; [discriminate|].
    intros [= <-]. exists stock_data. apply Nat.ltb_ge in Hl. auto.
  - intros (stock_data & -> & -> & Hl & ->).
    apply Nat.ltb_ge in Hl. rewrite Hl. reflexivity.
Qed.


(** A FRED method never raises.  Without a credential it does nothing; with
    one it makes one call, and returns the first valid observation divided by
    100 when there is one. *)
Lemma fred_method_run self series_id fetched failed w s :
  exists ws,
    fred_method self series_id fetched failed w s
    = match configured (fred_api_key self) with
      | None => (Ok None, s)
      | Some api_key =>
          let after o := mkState (calls s ++ [FredGet series_id api_key 10])
                           (ticks s) (out s ++ o) in
          match fred_value w series_id api_key (length (calls s)) with
          | Some v => (Ok (Some (fdiv v (of_int 100))), after [fetched v])
          | None => (Ok None, after ws)
          end
      end.
Proof.
  unfold fred_method, _fetch_from_fred, fred_value, try_except.
  destruct (configured (fred_api_key self)) as [api_key|];
    [|exists []; reflexivity].
  unfold bind at 1. unfold bind at 1. unfold fred_observations at 1. cbv zeta.
  destruct (fred_api w (length (calls s)) series_id api_key 10)
    as [observations|e]; [|eexists [_]; reflexivity].
  unfold lift at 1.
  destruct (first_observation observations) as [[v|]|e].
  - exists []. reflexivity.
  - exists []. unfold ret. rewrite app_nil_r. reflexivity.
  - eexists [_]. reflexivity.
Qed.

(** The ^IRX method never raises and makes one call; it returns the last
    close divided by 100 when that close is a number above zero. *)
Lemma irx_method_run w s :
  exists ws,
    irx_method w s
    = let after o := mkState (calls s ++ [YfDownload "^IRX" (Period "5d")])
                       (ticks s) (out s ++ o) in
      match irx_value w (length (calls s)) with
      | Some v => (Ok (Some (fdiv v (of_int 100))), after [PRateIrx v])
      | None => (Ok None, after ws)
      end.
Proof.
  unfold irx_method, irx_value, try_except. unfold bind at 1.
  unfold yf_download at 1. cbv zeta.
  destruct (download w (length (calls s)) "^IRX" (Period "5d")) as [irx_data|e];
    [|eexists [_]; reflexivity].
  destruct (empty irx_data); simpl;
    [exists []; unfold ret; rewrite app_nil_r; reflexivity|].
  unfold getitem, bind at 1.
  destruct (has_column "Close" irx_data); [|eexists [_]; reflexivity].
  unfold ret at 1. unfold iloc_last, bind at 1.
  destruct (last (column "Close" irx_data)) as [latest_rate|];
    [|eexists [_]; reflexivity].
  unfold ret at 1.
  destruct (negb (isnan latest_rate) && fgt latest_rate (of_int 0)).
  - exists []. reflexivity.
  - exists []. unfold ret. rewrite app_nil_r. reflexivity.
Qed.

(** The risk-free rate is what the chain of the three strategies resolves to,
    and the network calls made are those of the strategies tried. *)
Lemma rate_refines_chain self w s :
  let run := get_real_time_risk_free_rate self w s in
  (fst run, calls (snd run)) = resolve_scalar (rate_chain self w) (calls s).
Proof.
  cbv zeta.
  destruct (get_real_time_risk_free_rate self w s) as [r s'] eqn:Hrun. simpl.
  unfold get_real_time_risk_free_rate in Hrun.
  unfold bind at 1 in Hrun. unfold print at 1 in Hrun. unfold bind at 1 in Hrun.
  destruct (fred_method_run self "DGS3MO" PRateFred PFredFailed w
              (printed s PRateStart)) as [ws1 R1].
  rewrite R1 in Hrun. clear R1.
  unfold rate_chain, fred_strategy.
  destruct (configured (fred_api_key self)) as [api_key|] eqn:Hkey; simpl.
  - simpl in Hrun.
    destruct (fred_value w "DGS3MO" api_key (length (calls s)));
      [injection Hrun as <- <-; reflexivity|].
    unfold bind at 1 in Hrun.
    match type of Hrun with
    | context [irx_method w ?st] =>
        destruct (irx_method_run w st) as [ws2 R2]; rewrite R2 in Hrun; clear R2
    end.
    simpl in Hrun.
    destruct (irx_value w _); [injection Hrun as <- <-; reflexivity|].
    unfold bind at 1 in Hrun.
    match type of Hrun with
    | context [fred_method self "DGS1MO" PRateFred1M PFred1MFailed w ?st] =>
        destruct (fred_method_run self "DGS1MO" PRateFred1M PFred1MFailed w st)
          as [ws3 R3]; rewrite R3, Hkey in Hrun; clear R3
    end.
    simpl in Hrun.
    destruct (fred_value w "DGS1MO" api_key _);
      injection Hrun as <- <-; reflexivity.
  - simpl in Hrun. unfold bind at 1 in Hrun.
    match type of Hrun with
    | context [irx_method w ?st] =>
        destruct (irx_method_run w st) as [ws2 R2]; rewrite R2 in Hrun; clear R2
    end.
    simpl in Hrun. rewrite app_nil_r.
    destruct (irx_value w (length (calls s)));
      [injection Hrun as <- <-; reflexivity|].
    unfold bind at 1 in Hrun.
    match type of Hrun with
    | context [fred_method self "DGS1MO" PRateFred1M PFred1MFailed w ?st] =>
        destruct (fred_method_run self "DGS1MO" PRateFred1M PFred1MFailed w st)
          as [ws3 R3]; rewrite R3, Hkey in Hrun; clear R3
    end.
    injection Hrun as <- <-. simpl. rewrite app_nil_r. reflexivity.
Qed.

(** A needle without the character [c] matches at the head of [m] followed
    by [c] only if it matches at the head of [m]. *)
Lemma prefix_before_char needle c :
  has_char c needle = false ->
  forall m r,
    String.prefix needle (m +:+ String c r) = String.prefix needle m.
Proof.
  induction needle as [|a needle IH]; intros Hc m r.
  - destruct m; reflexivity.
  - simpl in Hc. apply orb_false_elim in Hc as [Hac Hrest].
    destruct m as [|b m]; simpl.
    + destruct (ascii_dec a c) as [->|]; [|reflexivity].
      rewrite Ascii.eqb_refl in Hac. discriminate.
    + destruct (ascii_dec a b); [apply IH; exact Hrest|reflexivity].
Qed.

Lemma contains_healthy_tail m :
  contains "HEALTHY" (m +:+ " ❌") = contains "HEALTHY" m.
Proof.
  induction m as [|b m IH]; [reflexivity|].
  change (contains "HEALTHY" (String b m +:+ " ❌"))
    with (String.prefix "HEALTHY" (String b m +:+ " ❌")
          || contains "HEALTHY" (m +:+ " ❌")).
  change (contains "HEALTHY" (String b m))
    with (String.prefix "HEALTHY" (String b m) || contains "HEALTHY" m).
  rewrite IH. f_equal.
  apply (prefix_before_char "HEALTHY" " "). reflexivity.
Qed.

(** An error status holds the text HEALTHY exactly when the message of the
    exception does. *)
Lemma contains_error_status e :
  contains "HEALTHY" (error_status e) = contains "HEALTHY" (str e).
Proof.
  unfold error_status.
  transitivity (contains "HEALTHY" (str e +:+ " ❌"));
    [reflexivity|apply contains_healthy_tail].
Qed.

(** A [try] whose handler returns a value never raises. *)
Lemma try_except_ret {A : Type} (m : M A) (f : exn -> A) w s :
  exists a s', try_except m (fun e => ret (f e)) w s = (Ok a, s').
Proof.
  unfold try_except. destruct (m w s) as [[a|e] s']; eauto.
Qed.

Lemma bind_ok {A B : Type} (m : M A) (k : A -> M B) w s a s' :
  m w s = (Ok a, s') -> bind m k w s = k a w s'.
Proof. unfold bind. intros ->. reflexivity. Qed.

Lemma test_yfinance_run w s :
  test_yfinance w s
  = (Ok (yfinance_status w (length (calls s))),
     mkState (calls s ++ [YfDownload "AAPL" (Period "5d")]) (ticks s) (out s)).
Proof.
  unfold test_yfinance, yfinance_status, try_except, bind, yf_download.
  destruct (download w (length (calls s)) "AAPL" (Period "5d")) as [d|e];
    [destruct (empty d)|]; reflexivity.
Qed.

Lemma test_fred_run self w s :
  exists s', test_fred self w s = (Ok (fred_status self w (length (calls s))), s').
Proof.
  unfold test_fred, fred_status, _fetch_from_fred, try_except.
  destruct (configured (fred_api_key self)) as [api_key|]; [|eexists; reflexivity].
  unfold bind at 1. unfold bind at 1. unfold fred_observations at 1.
  destruct (fred_api w (length (calls s)) "DGS3MO" api_key 1)
    as [observations|e]; [|eexists; reflexivity].
  unfold lift at 1.
  destruct (first_observation observations) as [[v|]|e]; eexists; reflexivity.
Qed.

(** The health check never raises; the statuses of its two data sources are
    those of the probes, and its overall status is computed from them. *)
Lemma health_check_run self w s :
  let sources := [("yfinance", yfinance_status w (length (calls s)));
                  ("fred", fred_status self w (S (length (calls s))))] in
  exists sample rate market s',
    system_health_check self w s
    = (Ok (mkReport (clock w (ticks s)) sources sample rate market
             (overall sources)),
       s').
Proof.
  cbv zeta. unfold system_health_check.
  unfold bind at 1. unfold print at 1. unfold bind at 1. unfold now at 1.
  erewrite bind_ok by apply test_yfinance_run. simpl calls.
  match goal with
  | |- context [bind (test_fred self) _ w ?st] =>
      destruct (test_fred_run self w st) as [s2 Hfred]
  end.
  erewrite bind_ok by exact Hfred. simpl calls. rewrite length_app. simpl length.
  replace (length (calls s) + 1)%nat with (S (length (calls s))) by lia.
  destruct (try_except_ret _ _ w s2 : exists a s', test_risk_free_rate self w s2 = _)
    as (rate & s3 & Hrate).
  erewrite bind_ok by exact Hrate.
  destruct (try_except_ret _ _ w s3 : exists a s', test_market_data self w s3 = _)
    as (market & s4 & Hmarket).
  erewrite bind_ok by exact Hmarket.
  destruct (try_except_ret _ _ w s4 : exists a s', test_sample_data self w s4 = _)
    as (sample & s5 & Hsample).
  erewrite bind_ok by exact Hsample.
  exists sample, rate, market. eexists. reflexivity.
Qed.

(** C8, as the code has it. The health check never raises: it returns a
    report whose data sources are yfinance and fred, each with the status its
    probe rendered.  A source counts as healthy when its status holds the text
    HEALTHY; the overall status is HEALTHY when both do, DEGRADED when exactly
    one does and CRITICAL when none does.  Without a credential the fred
    status is NO API KEY, which is not an error text but is not healthy
    either: the overall status is then DEGRADED when yfinance is healthy and
    CRITICAL otherwise, never HEALTHY.  When no probe failed with a message
    that holds the text HEALTHY, a source counts as healthy exactly when its
    probe succeeded. *)
Theorem health_check_overall self w s :
  let n := length (calls s) in
  let yfinance := yfinance_status w n in
  let fred := fred_status self w (S n) in
  exists report s',
    system_health_check self w s = (Ok report, s')
    /\ data_sources report = [("yfinance", yfinance); ("fred", fred)]
    /\ overall_status report
       = (if contains "HEALTHY" yfinance && contains "HEALTHY" fred then healthy
          else if contains "HEALTHY" yfinance || contains "HEALTHY" fred
               then degraded
               else critical)
    /\ (configured (fred_api_key self) = None ->
        fred = no_api_key
        /\ overall_status report
           = if contains "HEALTHY" yfinance then degraded else critical)
    /\ (plain (yfinance_probe_error w n) ->
        plain (fred_probe_error self w (S n)) ->
        overall_status report
        = if yfinance_probe_ok w n && fred_probe_ok self w (S n) then healthy
          else if yfinance_probe_ok w n || fred_probe_ok self w (S n)
               then degraded
               else critical).
Proof.
  intros n yfinance fred.
  destruct (health_check_run self w s) as (sample & rate & market & s' & Hrun).
  fold n in Hrun. fold yfinance in Hrun. fold fred in Hrun.
  eexists. exists s'. split; [exact Hrun|]. simpl.
  split; [reflexivity|].
  assert (Hoverall : overall [("yfinance", yfinance); ("fred", fred)]
                     = if contains "HEALTHY" yfinance && contains "HEALTHY" fred
                       then healthy
                       else if contains "HEALTHY" yfinance || contains "HEALTHY" fred
                            then degraded
                            else critical).
  { unfold overall, healthy_sources. simpl.
    destruct (contains "HEALTHY" yfinance), (contains "HEALTHY" fred);
      reflexivity. }
  split; [exact Hoverall|]. split.
  - intros Hkey. rewrite Hoverall. subst fred. unfold fred_status.
    rewrite Hkey. split; [reflexivity|].
    destruct (contains "HEALTHY" yfinance); reflexivity.
  - intros Hy Hf. rewrite Hoverall.
    assert (Ey : contains "HEALTHY" yfinance = yfinance_probe_ok w n).
    { subst yfinance. unfold yfinance_status, yfinance_probe_ok.
      unfold plain, yfinance_probe_error in Hy.
      destruct (download w n "AAPL" (Period "5d")) as [d|e].
      - destruct (empty d); reflexivity.
      - rewrite contains_error_status. exact Hy. }
    assert (Ef : contains "HEALTHY" fred = fred_probe_ok self w (S n)).
    { subst fred. unfold fred_status, fred_probe_ok.
      unfold plain, fred_probe_error in Hf.
      destruct (configured (fred_api_key self)) as [api_key|]; [|reflexivity].
      destruct (fred_api w (S n) "DGS3MO" api_key 1) as [observations|e].
      - destruct (first_observation observations) as [[v|]|e];
          [reflexivity|reflexivity|].
        rewrite contains_error_status. exact Hf.
      - rewrite contains_error_status. exact Hf. }
    rewrite Ey, Ef. reflexivity.
Qed.


(** The price block rejects for one of its three reasons only. *)
Lemma price_reasons (data : DataFrame) ticker reason :
  price_consistency data ticker = Some reason ->
  reason = PNoValidCloses ticker \/ reason = PInvalidPrices ticker
  \/ reason = PSuspicious ticker.
Proof.
  unfold price_consistency.
  destruct (has_column "Close" data); [|discriminate].
  destruct (length _ =? 0)%nat; [intros [= <-]; auto|].
  destruct (existsb _ _); [intros [= <-]; auto|].
  destruct (fgt _ _); [intros [= <-]; auto|discriminate].
Qed.

(** The gate, once the table is known to be neither empty nor short. *)
Lemma gate_after_size_checks (data : DataFrame) ticker w s :
  empty data = false ->
  (20 <= len data)%nat ->
  _validate_data_quality (Some data) ticker w s
  = if fgt (missing_pct data) lit_0_1 then
      (Ok false, printed s (PTooManyMissing ticker (missing_pct data)))
    else
      match price_consistency data ticker with
      | Some reason => (Ok false, printed s reason)
      | None => check_freshness data ticker w s
      end.
Proof.
  intros Hempty Hlen. unfold _validate_data_quality. rewrite Hempty.
  apply Nat.ltb_ge in Hlen. rewrite Hlen.
  destruct (fgt _ _); [reflexivity|].
  destruct (price_consistency data ticker); reflexivity.
Qed.

(** C7. A table that is not empty and has fewer than 20 rows is rejected by
    the quality gate: it returns [False] after printing the
    insufficient-data message, which carries the identifier and the actual
    number of rows; no other field of the table is looked at, the clock is
    not read and no network call is made. *)
Theorem short_table_rejected (data : DataFrame) (ticker : string) w s :
  empty data = false ->
  (len data < 20)%nat ->
  _validate_data_quality (Some data) ticker w s
  = (Ok false,
     mkState (calls s) (ticks s) (out s ++ [PInsufficient ticker (len data)])).
Proof.
  intros Hempty Hlen. unfold _validate_data_quality. rewrite Hempty.
  apply Nat.ltb_lt in Hlen. rewrite Hlen. reflexivity.
Qed.

(** C9. Calling the quality gate twice in succession on the same table and
    identifier gives the same verdict: the second call, run in the state the
    first one left, returns what the first returned; both return a boolean
    (the gate does not raise) and neither makes a network call. *)
Theorem gate_twice_same_verdict (data : option DataFrame) (ticker : string) w s :
  let first := _validate_data_quality data ticker w s in
  let second := _validate_data_quality data ticker w (snd first) in
  fst second = fst first
  /\ (exists verdict : bool, fst first = Ok verdict)
  /\ calls (snd second) = calls s.
Proof.
  destruct (gate_verdict_pure data ticker) as [verdict Hv]. simpl.
  destruct (Hv w s) as [H1 C1].
  destruct (Hv w (snd (_validate_data_quality data ticker w s))) as [H2 C2].
  split; [congruence|]. split; [exists verdict; exact H1|congruence].
Qed.

End Generic.

(** ** Evaluations on doubles *)

Section OnDoubles.

Local Existing Instance Binary64.ops.

Lemma short_table_rejected_witness :
  _validate_data_quality (Some (flat_table 5)) "BBB" batch_world start
  = (Ok false, mkState [] 0 [PInsufficient "BBB" 5]).
Proof.
  apply (short_table_rejected (flat_table 5) "BBB" batch_world start).
  - reflexivity.
  - vm_compute. lia.
Defined.

Lemma batch_partial_success_witness :
  exists all_data s',
    fetch_real_time_stock_data no_keys (Tickers ["AAA"; "BBB"; "CCC"]) "1y" true
      batch_world start
    = (Ok all_data, s')
    /\ size all_data = 2%nat
    /\ last (out s') = Some (PFailedTickers 1 ["BBB"]).
Proof.
  edestruct (proj2 batch_partial_success no_keys "1y" true batch_world start)
    as [Hrun Hsize];
    [vm_compute; reflexivity|vm_compute; reflexivity|vm_compute; reflexivity|].
  eexists _, _. split; [exact Hrun|]. split; [exact Hsize|reflexivity].
Defined.

(** C1, as stated, fails: the returned value does not hold the failed
    identifiers.  In [batch_world] the call on AAA, BBB, CCC (BBB fails) and the
    call on AAA, CCC (nothing fails) return the same mapping, while their lists
    of failed identifiers are [BBB] and the empty list. *)
Lemma failed_tickers_not_returned :
  exists all_data,
    fst (fetch_real_time_stock_data no_keys (Tickers ["AAA"; "BBB"; "CCC"]) "1y" true
           batch_world start) = Ok all_data
    /\ fst (fetch_real_time_stock_data no_keys (Tickers ["AAA"; "CCC"]) "1y" true
              batch_world start) = Ok all_data
    /\ (exists s', fetch_loop ["AAA"; "BBB"; "CCC"] "1y" true ∅ [] batch_world
                     (printed start (PFetching ["AAA"; "BBB"; "CCC"]))
                   = (Ok (all_data, ["BBB"]), s'))
    /\ (exists s', fetch_loop ["AAA"; "CCC"] "1y" true ∅ [] batch_world
                     (printed start (PFetching ["AAA"; "CCC"]))
                   = (Ok (all_data, []), s')).
Proof.
  eexists. split; [vm_compute; reflexivity|].
  split; [vm_compute; reflexivity|].
  split; eexists; vm_compute; reflexivity.
Qed.

Lemma single_ticker_as_list_witness :
  exists data,
    fst (fetch_real_time_stock_data no_keys (Str "AAA") "1y" true batch_world start)
    = Ok {[ "AAA" := data ]}.
Proof.
  destruct (single_ticker_as_list no_keys "AAA" "1y" true batch_world start)
    as [_ Hkey].
  destruct (Hkey (<["AAA" := dropna (flat_table 25)]> ∅)) as [data Hdata].
  - vm_compute. reflexivity.
  - exists data. rewrite <- Hdata. vm_compute. reflexivity.
Defined.





(** C4, where the code departs from it. With a credential, the first valid
    FRED observation is returned divided by 100 whatever its value: an
    observation of 0 gives the rate 0, an observation of -1.5 gives a negative
    rate, and a not-a-number observation gives not-a-number.  None of these
    is a positive number, and no later strategy is tried. *)
Theorem fred_observation_not_checked :
  get_real_time_risk_free_rate with_fred_key (fred_world [Number 0%float]) start
  = (Ok 0%float,
     mkState [FredGet "DGS3MO" "KEY" 10] 0 [PRateStart; PRateFred 0%float])
  /\ fst (get_real_time_risk_free_rate with_fred_key
            (fred_world [Dot; Number (-1.5)%float]) start)
     = Ok (-0.015)%float
  /\ (exists rate,
        fst (get_real_time_risk_free_rate with_fred_key
               (fred_world [Number PrimFloat.nan]) start) = Ok rate
        /\ PrimFloat.is_nan rate = true)
  /\ PrimFloat.ltb 0 0 = false
  /\ PrimFloat.ltb 0 (-0.015) = false.
Proof.
  split; [reflexivity|]. split; [reflexivity|].
  split; [eexists; split; reflexivity|]. split; reflexivity.
Qed.

Lemma health_check_overall_witness :
  exists report,
    fst (system_health_check no_keys batch_world start) = Ok report
    /\ overall_status report = degraded.
Proof.
  destruct (health_check_overall no_keys batch_world start)
    as (report & s' & Hrun & _ & _ & _ & Hplain).
  exists report. split; [rewrite Hrun; reflexivity|].
  rewrite Hplain; [reflexivity|exact I|exact I].
Defined.

(** C8, as stated, fails: an absent credential does prevent the overall
    status HEALTHY.  Without a credential, in a world where the probe of the
    series source succeeds (the only source that is checked), the fred status
    is NO API KEY and the overall status is DEGRADED. *)
Lemma no_credential_is_degraded :
  exists report,
    fst (system_health_check no_keys batch_world start) = Ok report
    /\ data_sources report = [("yfinance", "HEALTHY ✅"); ("fred", "NO API KEY ⚠️")]
    /\ overall_status report = "DEGRADED ⚠️"
    /\ yfinance_probe_ok batch_world 0 = true
    /\ fred_api_key no_keys = None.
Proof.
  eexists. split; [vm_compute; reflexivity|]. repeat split.
Qed.

(** A failure whose message holds the text HEALTHY is counted as a healthy
    source: here no probe succeeded, and the overall status is DEGRADED. *)
Lemma error_text_counts_as_healthy :
  exists report,
    fst (system_health_check no_keys shouting_world start) = Ok report
    /\ data_sources report
       = [("yfinance", "ERROR: upstream says HEALTHY but sent nothing ❌");
          ("fred", "NO API KEY ⚠️")]
    /\ overall_status report = "DEGRADED ⚠️"
    /\ yfinance_probe_ok shouting_world 0 = false.
Proof.
  eexists. split; [vm_compute; reflexivity|]. repeat split.
Qed.


End OnDoubles.

(** ** The thresholds of the quality gate, in exact arithmetic *)

Section OnExact.

Local Existing Instance Exact.ops.












End OnExact.

(** ** Further properties of the quality gate *)

Section GateProperties.

Context {FL : Float64}.

(** The gate accepts exactly the tables that trigger none of its rejecting
    checks. *)
Lemma gate_accepts_iff (data : DataFrame) ticker w s :
  fst (_validate_data_quality (Some data) ticker w s) = Ok true
  <-> passes_hard_checks data ticker.
Proof.
  unfold passes_hard_checks. split.
  - unfold _validate_data_quality.
    destruct (empty data) eqn:Hempty; [discriminate|].
    destruct (len data <? 20)%nat eqn:Hlen; [discriminate|].
    destruct (fgt (missing_pct data) lit_0_1); [discriminate|].
    destruct (price_consistency data ticker); [discriminate|].
    intros _. apply Nat.ltb_ge in Hlen. auto.
  - intros (Hempty & Hlen & Hmissing & Hprice).
    rewrite (gate_after_size_checks data ticker w s Hempty Hlen).
    rewrite Hmissing, Hprice.
    destruct (check_freshness_accepts data ticker w s Hempty) as [ws ->].
    reflexivity.
Qed.

(** X1. A table that passes the size and missing-data checks and has a close
    that is a number not above zero is rejected for invalid prices, whatever
    else the table holds: the check comes before the one on extreme moves. *)
Theorem nonpositive_close_rejected (data : DataFrame) ticker w s close :
  empty data = false ->
  (20 <= len data)%nat ->
  fgt (missing_pct data) lit_0_1 = false ->
  has_column "Close" data = true ->
  In close (column "Close" data) ->
  isnan close = false ->
  fle close (of_int 0) = true ->
  _validate_data_quality (Some data) ticker w s
  = (Ok false, printed s (PInvalidPrices ticker)).
Proof.
  intros Hempty Hlen Hmissing Hhas Hin Hnan Hle.
  rewrite (gate_after_size_checks data ticker w s Hempty Hlen), Hmissing.
  unfold price_consistency. rewrite Hhas.
  assert (Hkept : In close (series_dropna (column "Close" data))).
  { unfold series_dropna. apply filter_In. rewrite Hnan. auto. }
  destruct (series_dropna (column "Close" data)) as [|c closes] eqn:Hcloses;
    [contradiction|].
  cbn [length Nat.eqb].
  assert (Hexists : existsb (fun c => fle c (of_int 0)) (c :: closes) = true).
  { apply existsb_exists. exists close. auto. }
  rewrite Hexists. reflexivity.
Qed.

(** X2. The price checks apply to the column labelled [Close] only: a table
    without that label that passes the size and missing-data checks is
    accepted, whatever its cells hold. *)
Theorem table_without_close_accepted (data : DataFrame) ticker w s :
  empty data = false ->
  (20 <= len data)%nat ->
  fgt (missing_pct data) lit_0_1 = false ->
  has_column "Close" data = false ->
  fst (_validate_data_quality (Some data) ticker w s) = Ok true.
Proof.
  intros Hempty Hlen Hmissing Hhas. apply gate_accepts_iff.
  unfold passes_hard_checks, price_consistency. rewrite Hhas. auto.
Qed.

(** X3. Staleness never rejects.  A table that passes the rejecting checks is
    accepted after one reading of the clock, and the staleness warning is
    printed exactly when the last row is more than 10 whole days older than
    that reading. *)
Theorem stale_table_accepted (data : DataFrame) ticker w s latest :
  passes_hard_checks data ticker ->
  last (index data) = Some latest ->
  _validate_data_quality (Some data) ticker w s
  = (Ok true,
     mkState (calls s) (S (ticks s))
       (out s ++ age_warning 10 (clock w (ticks s)) latest (PStale ticker)
              ++ [PValidated ticker])).
Proof.
  intros (Hempty & Hlen & Hmissing & Hprice) Hlast.
  rewrite (gate_after_size_checks data ticker w s Hempty Hlen).
  rewrite Hmissing, Hprice.
  unfold check_freshness, latest_index, bind, now, ret, print, printed, age_warning.
  rewrite Hlast. simpl.
  destruct (10 <? _); simpl; [rewrite <- app_assoc|]; reflexivity.
Qed.

(** X4. A rejection prints exactly one message, one of the six reasons of the
    gate, and leaves the clock unread and the network untouched. *)
Theorem rejection_prints_one_reason (data : DataFrame) ticker w s :
  fst (_validate_data_quality (Some data) ticker w s) = Ok false ->
  exists reason,
    In reason (rejection_reasons data ticker)
    /\ _validate_data_quality (Some data) ticker w s
       = (Ok false, printed s reason).
Proof.
  unfold _validate_data_quality, rejection_reasons.
  destruct (empty data) eqn:Hempty;
    [intros _; eexists; split; [|reflexivity]; simpl; auto|].
  destruct (len data <? 20)%nat;
    [intros _; eexists; split; [|reflexivity]; simpl; auto|].
  destruct (fgt (missing_pct data) lit_0_1);
    [intros _; eexists; split; [|reflexivity]; simpl; auto|].
  destruct (price_consistency data ticker) as [reason|] eqn:Hprice.
  - intros _. exists reason. split; [|reflexivity].
    apply price_reasons in Hprice as [->|[->| ->]]; simpl; auto 10.
  - destruct (check_freshness_accepts data ticker w s Hempty) as [ws ->].
    discriminate.
Qed.

End GateProperties.

(** ** Further properties of the retrying fetcher *)

Section FetchProperties.

Context {FL : Float64}.

Lemma dropna_complete (data : DataFrame) : isnull_sum (dropna data) = 0%nat.
Proof.
  unfold isnull_sum, dropna. simpl.
  induction (rows data) as [|r rws IH]; [reflexivity|].
  simpl. destruct (row_isnull_sum (columns data) (snd r) =? 0)%nat eqn:Hr;
    [|exact IH].
  simpl. rewrite IH. apply Nat.eqb_eq in Hr. lia.
Qed.

(** An attempt that succeeds yields a complete table. *)
Lemma checked_complete ticker answer data :
  checked ticker answer = Ok data -> complete data.
Proof.
  intros H. apply checked_ok in H as (stock_data & _ & _ & Hlen & ->).
  split; [exact Hlen|apply dropna_complete].
Qed.

(** A fetch returns what one of its three attempts got. *)
Lemma fetch_ok_answer ticker period w s data s' :
  _fetch_from_yfinance ticker period w s = (Ok data, s') ->
  exists i, (i < 3)%nat /\ attempt_answer ticker period w s i = Ok data.
Proof.
  destruct (fetch_unrolled ticker period w s) as [ws Hrun].
  cbv zeta in Hrun. rewrite Hrun. clear Hrun.
  destruct (attempt_answer ticker period w s 0) as [d0|e0] eqn:H0;
    [intros [= <- _]; exists 0%nat; split; [lia|exact H0]|].
  destruct (attempt_answer ticker period w s 1) as [d1|e1] eqn:H1;
    [intros [= <- _]; exists 1%nat; split; [lia|exact H1]|].
  destruct (attempt_answer ticker period w s 2) as [d2|e2] eqn:H2;
    [intros [= <- _]; exists 2%nat; split; [lia|exact H2]|discriminate].
Qed.

(** The network calls of a fetch: one to three downloads of its ticker. *)
Lemma fetch_calls ticker period w s :
  exists k, (1 <= k <= 3)%nat
    /\ calls (snd (_fetch_from_yfinance ticker period w s))
       = calls s ++ downloads ticker (fetch_range period w s) k.
Proof.
  destruct (fetch_unrolled ticker period w s) as [ws Hrun].
  cbv zeta in Hrun. rewrite Hrun. clear Hrun.
  destruct (attempt_answer ticker period w s 0);
    [exists 1%nat; split; [lia|reflexivity]|].
  destruct (attempt_answer ticker period w s 1);
    [exists 2%nat; split; [lia|reflexivity]|].
  destruct (attempt_answer ticker period w s 2);
    exists 3%nat; (split; [lia|reflexivity]).
Qed.

Lemma fetch_ok_complete ticker period w s data s' :
  _fetch_from_yfinance ticker period w s = (Ok data, s') -> complete data.
Proof.
  intros Hrun. apply fetch_ok_answer in Hrun as (i & _ & Hanswer).
  exact (checked_complete _ _ _ Hanswer).
Qed.

(** X5. A table that a fetch returns has at least 20 rows and no missing
    cell: it is the answer of the source to one of the three calls, not empty,
    with the rows that hold a missing value dropped. *)
Theorem fetch_returns_complete_table ticker period w s data s' :
  _fetch_from_yfinance ticker period w s = (Ok data, s') ->
  complete data
  /\ exists i stock_data,
       (i < 3)%nat
       /\ download w (length (calls s) + i) ticker (fetch_range period w s)
          = Ok stock_data
       /\ empty stock_data = false
       /\ data = dropna stock_data.
Proof.
  intros Hrun. apply fetch_ok_answer in Hrun as (i & Hi & Hanswer).
  split; [exact (checked_complete _ _ _ Hanswer)|].
  unfold attempt_answer in Hanswer.
  apply checked_ok in Hanswer as (stock_data & Hdown & Hempty & _ & ->).
  exists i, stock_data. auto.
Qed.

(** X6. When the first answer passes the checks, the fetch returns it after
    that single call and prints no retry warning; the only message it may
    print is the age warning, exactly when the last row is more than 7 whole
    days older than the clock reading taken after the download. *)
Theorem fetch_first_answer_wins ticker period w s data latest :
  attempt_answer ticker period w s 0 = Ok data ->
  last (index data) = Some latest ->
  _fetch_from_yfinance ticker period w s
  = (Ok data,
     mkState (calls s ++ downloads ticker (fetch_range period w s) 1)
       (S (S (ticks s)))
       (out s ++ age_warning 7 (clock w (S (ticks s))) latest (PDataOld ticker))).
Proof.
  unfold attempt_answer, checked, fetch_range. rewrite Nat.add_0_r.
  intros Hanswer Hlast.
  unfold _fetch_from_yfinance, bind at 1. unfold now at 1.
  change (max_retries - 1)%nat with 2%nat. cbv zeta. simpl retry_loop.
  unfold try_except at 1. unfold download_attempt, bind at 1.
  unfold yf_download at 1. simpl calls.
  destruct (download w (length (calls s)) ticker _) as [stock_data|e];
    [|discriminate].
  unfold bind at 1. unfold lift at 1. rewrite Hanswer.
  unfold bind, latest_index, now, ret, print, printed, age_warning.
  rewrite Hlast. simpl.
  destruct (7 <? _); simpl; [reflexivity|rewrite app_nil_r; reflexivity].
Qed.

(** X7. An empty answer is a failed attempt like any other: a source that
    answers the three calls of a fetch with tables that are empty makes the
    fetch raise the no-data-returned error for its ticker, after three calls
    and two retry warnings. *)
Theorem empty_answers_exhaust_retries ticker period w s :
  (forall i, (i < 3)%nat ->
     exists stock_data,
       download w (length (calls s) + i) ticker (fetch_range period w s)
       = Ok stock_data
       /\ empty stock_data = true) ->
  let failure := "No data returned for " +:+ ticker in
  _fetch_from_yfinance ticker period w s
  = (Raised (ValueError failure),
     mkState (calls s ++ downloads ticker (fetch_range period w s) 3)
       (S (ticks s))
       (out s ++ [PRetry 1 ticker failure; PRetry 2 ticker failure])).
Proof.
  intros Hempty failure.
  assert (Hanswer : forall i, (i < 3)%nat ->
            attempt_answer ticker period w s i = Raised (ValueError failure)).
  { intros i Hi. destruct (Hempty i Hi) as (stock_data & Hdown & He).
    unfold attempt_answer, checked, clean_and_validate.
    rewrite Hdown, He. reflexivity. }
  destruct (fetch_unrolled ticker period w s) as [ws Hrun].
  cbv zeta in Hrun. rewrite Hrun.
  rewrite !Hanswer by lia. reflexivity.
Qed.

End FetchProperties.

(** ** Further properties of the batch entry point *)

Section BatchProperties.

Context {FL : Float64}.

(** Fetching one ticker for the batch: the fetch, then the gate when asked. *)
Lemma fetch_validated_run ticker period validate w s :
  fetch_validated ticker period validate w s
  = match _fetch_from_yfinance ticker period w s with
    | (Ok data, s1) =>
        if validate then
          match _validate_data_quality (Some data) ticker w s1 with
          | (Ok true, s2) => (Ok data, s2)
          | (Ok false, s2) =>
              (Raised (ValueError ("Data quality validation failed for "
                                   +:+ ticker)), s2)
          | (Raised e, s2) => (Raised e, s2)
          end
        else (Ok data, s1)
    | (Raised e, s1) => (Raised e, s1)
    end.
Proof.
  unfold fetch_validated, bind at 1.
  destruct (_fetch_from_yfinance ticker period w s) as [[data|e] s1];
    [|reflexivity].
  destruct validate; [|reflexivity].
  unfold bind at 1. unfold bind at 1.
  destruct (_validate_data_quality (Some data) ticker w s1) as [[[|]|e] s2];
    reflexivity.
Qed.

(** With [validate] set, a table is handed to the batch only when the gate
    accepted it. *)
Lemma fetch_validated_ok ticker period validate w s data s' :
  fetch_validated ticker period validate w s = (Ok data, s') ->
  complete data /\ (validate = true -> passes_hard_checks data ticker).
Proof.
  rewrite fetch_validated_run.
  destruct (_fetch_from_yfinance ticker period w s) as [[d|e] s1] eqn:Hfetch;
    [|discriminate].
  apply fetch_ok_complete in Hfetch.
  destruct validate; [|intros [= <- _]; split; [exact Hfetch|discriminate]].
  destruct (_validate_data_quality (Some d) ticker w s1) as [[[|]|e] s2] eqn:Hgate;
    [|discriminate|discriminate].
  intros [= <- _]. split; [exact Hfetch|]. intros _.
  apply (gate_accepts_iff d ticker w s1). rewrite Hgate. reflexivity.
Qed.

(** The network calls of fetching one ticker for the batch are those of the
    fetch: the gate makes none. *)
Lemma fetch_validated_calls ticker period validate w s :
  exists k, (1 <= k <= 3)%nat
    /\ calls (snd (fetch_validated ticker period validate w s))
       = calls s ++ downloads ticker (fetch_range period w s) k.
Proof.
  rewrite fetch_validated_run.
  destruct (fetch_calls ticker period w s) as (k & Hk & Hcalls).
  exists k. split; [exact Hk|].
  destruct (_fetch_from_yfinance ticker period w s) as [[d|e] s1];
    [|exact Hcalls].
  destruct validate; [|exact Hcalls].
  destruct (gate_verdict_pure (Some d) ticker) as [verdict Hgate].
  destruct (Hgate w s1) as [_ Hsame].
  destruct (_validate_data_quality (Some d) ticker w s1) as [[[|]|e] s2];
    simpl in *; congruence.
Qed.

(** What holds of every table of [all_data] holds after the loop, when it
    holds of every table a ticker of the loop is fetched with. *)
Lemma fetch_loop_invariant (P : string -> DataFrame -> Prop) period validate :
  (forall ticker w s data s',
     fetch_validated ticker period validate w s = (Ok data, s') -> P ticker data) ->
  forall tickers (all_data : gmap string DataFrame) failed_tickers w s
         all_data' failed_tickers' s',
    (forall t d, all_data !! t = Some d -> P t d) ->
    fetch_loop tickers period validate all_data failed_tickers w s
    = (Ok (all_data', failed_tickers'), s') ->
    forall t d, all_data' !! t = Some d -> P t d.
Proof.
  intros Hstep tickers.
  induction tickers as [|ticker rest IH];
    intros all_data failed_tickers w s all_data' failed_tickers' s' Hinv Hrun.
  - injection Hrun as <- _ _. exact Hinv.
  - rewrite fetch_loop_step in Hrun.
    destruct (fetch_validated ticker period validate w s) as [[data|e] s1] eqn:Hone.
    + eapply IH; [|exact Hrun].
      intros t d Hlookup. destruct (decide (ticker = t)) as [->|Hne].
      * rewrite lookup_insert_eq in Hlookup. injection Hlookup as <-.
        exact (Hstep _ _ _ _ _ Hone).
      * rewrite lookup_insert_ne in Hlookup by exact Hne.
        exact (Hinv _ _ Hlookup).
    + eapply IH; [exact Hinv|exact Hrun].
Qed.

(** X8. Every table of a mapping that the batch returns has at least 20 rows
    and no missing cell; when [validate] is set it also triggers none of the
    rejecting checks of the gate. *)
Theorem batch_returns_checked_tables self tickers period validate w s all_data s' :
  fetch_real_time_stock_data self tickers period validate w s = (Ok all_data, s') ->
  forall ticker data,
    all_data !! ticker = Some data ->
    complete data /\ (validate = true -> passes_hard_checks data ticker).
Proof.
  intros Hrun.
  assert (Hlist : exists l,
            fetch_real_time_stock_data self (Tickers l) period validate w s
            = (Ok all_data, s')).
  { destruct tickers as [ticker|l]; [exists [ticker]|exists l]; exact Hrun. }
  destruct Hlist as [l Hl]. rewrite fetch_after_loop in Hl.
  destruct (fetch_loop l period validate ∅ [] w (printed s (PFetching l)))
    as [[[m f]|e] s1] eqn:Hloop; [|discriminate].
  destruct (size m =? 0)%nat; [discriminate|]. injection Hl as <- _.
  apply (fetch_loop_invariant
           (fun t d => complete d /\ (validate = true -> passes_hard_checks d t))
           period validate
           (fun t w0 s0 d s0' => fetch_validated_ok t period validate w0 s0 d s0')
           l ∅ [] w (printed s (PFetching l)) m f s1); [|exact Hloop].
  intros t d Hlookup. rewrite lookup_empty in Hlookup. discriminate.
Qed.

Lemma length_downloads ticker q k : length (downloads ticker q k) = k.
Proof. apply repeat_length. Qed.

(** The loop makes one to three network calls for each ticker. *)
Lemma fetch_loop_calls tickers period validate :
  forall (all_data : gmap string DataFrame) failed_tickers w s,
  exists n,
    (length tickers <= n <= 3 * length tickers)%nat
    /\ length (calls (snd (fetch_loop tickers period validate all_data
                             failed_tickers w s)))
       = (length (calls s) + n)%nat.
Proof.
  induction tickers as [|ticker rest IH]; intros all_data failed_tickers w s.
  - exists 0%nat. simpl. split; lia.
  - rewrite fetch_loop_step.
    destruct (fetch_validated_calls ticker period validate w s) as (k & Hk & Hcalls).
    destruct (fetch_validated ticker period validate w s) as [[data|e] s1];
      simpl in Hcalls.
    + destruct (IH (<[ticker := data]> all_data) failed_tickers w
                  (printed s1 (PFetched ticker (len data)))) as (n & Hn & Hlen).
      exists (k + n)%nat. rewrite Hlen. simpl calls.
      rewrite Hcalls, length_app, length_downloads. simpl length. split; lia.
    + destruct (IH all_data (failed_tickers ++ [ticker]) w
                  (printed s1 (PFetchFailed ticker (str e)))) as (n & Hn & Hlen).
      exists (k + n)%nat. rewrite Hlen. simpl calls.
      rewrite Hcalls, length_app, length_downloads. simpl length. split; lia.
Qed.

(** X9. A batch makes at least one and at most three network calls for each
    identifier of its list, whether it returns or raises. *)
Theorem batch_call_bound self (tickers : list string) period validate w s :
  let run := fetch_real_time_stock_data self (Tickers tickers) period validate w s in
  exists n,
    (length tickers <= n <= 3 * length tickers)%nat
    /\ length (calls (snd run)) = (length (calls s) + n)%nat.
Proof.
  cbv zeta. rewrite fetch_after_loop.
  destruct (fetch_loop_calls tickers period validate ∅ [] w
              (printed s (PFetching tickers))) as (n & Hn & Hlen).
  exists n. split; [exact Hn|].
  destruct (fetch_loop tickers period validate ∅ [] w (printed s (PFetching tickers)))
    as [[[m f]|e] s1]; simpl in *; [|exact Hlen].
  destruct (size m =? 0)%nat; [exact Hlen|].
  destruct f; exact Hlen.
Qed.

(** When every answer of the source fails its attempt, the loop accepts
    nothing, lists every ticker as failed and makes three calls for each. *)
Lemma fetch_loop_all_fail period validate w :
  (forall n ticker q, exists e, checked ticker (download w n ticker q) = Raised e) ->
  forall tickers (all_data : gmap string DataFrame) failed_tickers s,
  exists s',
    fetch_loop tickers period validate all_data failed_tickers w s
    = (Ok (all_data, failed_tickers ++ tickers), s')
    /\ length (calls s') = (length (calls s) + 3 * length tickers)%nat.
Proof.
  intros Hdown tickers.
  induction tickers as [|ticker rest IH]; intros all_data failed_tickers s.
  - exists s. simpl. rewrite app_nil_r. split; [reflexivity|lia].
  - rewrite fetch_loop_step, fetch_validated_run.
    destruct (fetch_unrolled ticker period w s) as [ws Hrun].
    cbv zeta in Hrun. unfold attempt_answer in Hrun.
    destruct (Hdown (length (calls s) + 0)%nat ticker (fetch_range period w s))
      as [e1 H1].
    destruct (Hdown (length (calls s) + 1)%nat ticker (fetch_range period w s))
      as [e2 H2].
    destruct (Hdown (length (calls s) + 2)%nat ticker (fetch_range period w s))
      as [e3 H3].
    rewrite H1, H2, H3 in Hrun. rewrite Hrun.
    match goal with
    | |- context [fetch_loop rest period validate all_data ?f w ?st] =>
        destruct (IH all_data f st) as (s' & Hloop & Hlen)
    end.
    exists s'. rewrite Hloop, <- app_assoc. split; [reflexivity|].
    rewrite Hlen. simpl calls. rewrite length_app. simpl length. lia.
Qed.

(** X10. When the source fails every attempt (it raises, or answers with a
    table that is empty or too short), a batch over any list of identifiers
    makes exactly three network calls for each of them and then raises the
    no-data error. *)
Theorem batch_of_failures_raises self (tickers : list string) period validate w s :
  (forall n ticker q, exists e, checked ticker (download w n ticker q) = Raised e) ->
  let run := fetch_real_time_stock_data self (Tickers tickers) period validate w s in
  fst run = Raised no_data_error
  /\ length (calls (snd run)) = (length (calls s) + 3 * length tickers)%nat.
Proof.
  intros Hdown. cbv zeta. rewrite fetch_after_loop.
  destruct (fetch_loop_all_fail period validate w Hdown tickers ∅ []
              (printed s (PFetching tickers))) as (s' & -> & Hlen).
  rewrite map_size_empty. simpl. split; [reflexivity|exact Hlen].
Qed.

(** When every answer of the source passes the checks of the fetcher and of
    the gate, the loop accepts every ticker with one call each. *)
Lemma fetch_loop_all_succeed period validate w :
  (forall n ticker q,
     exists data, checked ticker (download w n ticker q) = Ok data
                  /\ passes_hard_checks data ticker) ->
  forall tickers (all_data : gmap string DataFrame) failed_tickers s,
  exists all_data' s',
    fetch_loop tickers period validate all_data failed_tickers w s
    = (Ok (all_data', failed_tickers), s')
    /\ dom all_data' = dom all_data ∪ list_to_set tickers
    /\ length (calls s') = (length (calls s) + length tickers)%nat.
Proof.
  intros Hdown tickers.
  induction tickers as [|ticker rest IH]; intros all_data failed_tickers s.
  - exists all_data, s. simpl. split; [reflexivity|]. split; [set_solver|lia].
  - rewrite fetch_loop_step, fetch_validated_run.
    destruct (fetch_unrolled ticker period w s) as [ws Hrun].
    cbv zeta in Hrun. unfold attempt_answer in Hrun.
    destruct (Hdown (length (calls s) + 0)%nat ticker (fetch_range period w s))
      as (data & H1 & Hpass).
    rewrite H1 in Hrun. rewrite Hrun. clear Hrun.
    set (s1 := mkState _ _ _).
    assert (Hgate : exists s2,
              (if validate then
                 match _validate_data_quality (Some data) ticker w s1 with
                 | (Ok true, s2) => (Ok data, s2)
                 | (Ok false, s2) =>
                     (Raised (ValueError ("Data quality validation failed for "
                                          +:+ ticker)), s2)
                 | (Raised e, s2) => (Raised e, s2)
                 end
               else (Ok data, s1)) = (Ok data, s2)
              /\ calls s2 = calls s1).
    { destruct validate; [|exists s1; split; reflexivity].
      pose proof (proj2 (gate_accepts_iff data ticker w s1) Hpass) as Haccept.
      destruct (gate_verdict_pure (Some data) ticker) as [verdict Hpure].
      destruct (Hpure w s1) as [_ Hsame].
      destruct (_validate_data_quality (Some data) ticker w s1) as [[[|]|e] s2];
        simpl in *; try discriminate.
      exists s2. split; [reflexivity|exact Hsame]. }
    destruct Hgate as (s2 & -> & Hcalls).
    destruct (IH (<[ticker := data]> all_data) failed_tickers
                (printed s2 (PFetched ticker (len data))))
      as (m & s' & Hloop & Hdom & Hlen).
    exists m, s'. split; [exact Hloop|]. split.
    + rewrite Hdom, dom_insert_L. set_solver.
    + rewrite Hlen. simpl calls. rewrite Hcalls. subst s1. simpl calls.
      rewrite length_app. simpl length. lia.
Qed.

(** X11. When every answer of the source passes the checks of the fetcher and
    of the gate, a batch over a list that is not empty returns a mapping whose
    keys are exactly the identifiers of the list, after a single network call
    for each of them. *)
Theorem batch_of_successes_returns_all self (tickers : list string) period
    validate w s :
  (forall n ticker q,
     exists data, checked ticker (download w n ticker q) = Ok data
                  /\ passes_hard_checks data ticker) ->
  tickers <> [] ->
  exists all_data s',
    fetch_real_time_stock_data self (Tickers tickers) period validate w s
    = (Ok all_data, s')
    /\ dom all_data = list_to_set tickers
    /\ length (calls s') = (length (calls s) + length tickers)%nat.
Proof.
  intros Hdown Hne. rewrite fetch_after_loop.
  destruct (fetch_loop_all_succeed period validate w Hdown tickers ∅ []
              (printed s (PFetching tickers))) as (m & s' & -> & Hdom & Hlen).
  rewrite dom_empty_L, (left_id_L ∅ (∪)) in Hdom.
  assert (Hsize : size m <> 0%nat).
  { rewrite <- size_dom, Hdom. destruct tickers as [|t rest]; [congruence|].
    intros H. apply size_empty_inv in H. set_solver. }
  destruct (size m) eqn:Hm; [congruence|]. simpl.
  exists m, s'. split; [reflexivity|]. split; [exact Hdom|exact Hlen].
Qed.

End BatchProperties.

(** ** Further properties of the scalar fetcher and of the rate chain *)

Section RateProperties.

Context {FL : Float64}.

Lemma first_observation_skips (n : nat) (observations : list observation) :
  first_observation (repeat Dot n ++ observations)
  = first_observation observations.
Proof. induction n as [|n IH]; [reflexivity|exact IH]. Qed.

(** X12. The scalar fetcher asks for a credential before it touches the
    network: without one it raises and makes no call.  With one it makes a
    single call and returns the first observation that is not the sentinel,
    whatever follows it; an answer of sentinels only gives [None]. *)
Theorem fred_returns_first_value self series_id limit w s :
  (configured (fred_api_key self) = None ->
   _fetch_from_fred self series_id limit w s
   = (Raised (ValueError "FRED API key required"), s))
  /\ (forall api_key n v rest,
        configured (fred_api_key self) = Some api_key ->
        fred_api w (length (calls s)) series_id api_key limit
        = Ok (repeat Dot n ++ Number v :: rest) ->
        _fetch_from_fred self series_id limit w s
        = (Ok (Some v),
           mkState (calls s ++ [FredGet series_id api_key limit]) (ticks s) (out s)))
  /\ (forall api_key n,
        configured (fred_api_key self) = Some api_key ->
        fred_api w (length (calls s)) series_id api_key limit = Ok (repeat Dot n) ->
        _fetch_from_fred self series_id limit w s
        = (Ok None,
           mkState (calls s ++ [FredGet series_id api_key limit]) (ticks s) (out s))).
Proof.
  unfold _fetch_from_fred. split; [|split].
  - intros ->. reflexivity.
  - intros api_key n v rest -> Hanswer.
    unfold bind, fred_observations, lift. rewrite Hanswer.
    rewrite first_observation_skips. reflexivity.
  - intros api_key n -> Hanswer.
    unfold bind, fred_observations, lift. rewrite Hanswer.
    rewrite <- (app_nil_r (repeat Dot n)), first_observation_skips. reflexivity.
Qed.

(** The value that the ^IRX strategy yields is a number above zero. *)
Lemma irx_value_usable w n v :
  irx_value w n = Some v -> isnan v = false /\ fgt v (of_int 0) = true.
Proof.
  unfold irx_value.
  destruct (download w n "^IRX" (Period "5d")) as [irx_data|e]; [|discriminate].
  destruct (empty irx_data); [discriminate|].
  destruct (has_column "Close" irx_data); [|discriminate].
  destruct (last (column "Close" irx_data)) as [latest_rate|]; [|discriminate].
  destruct (negb (isnan latest_rate) && fgt latest_rate (of_int 0)) eqn:Htest;
    [|discriminate].
  intros [= <-]. apply andb_true_iff in Htest as [Hnan Hpos].
  apply negb_true_iff in Hnan. auto.
Qed.

(** X13. The module-level [get_risk_free_rate] runs on a pipeline without
    credential: it makes the ^IRX call and no other, so the economic-data
    source is never contacted; it returns the last ^IRX close divided by 100
    when that close is a number above zero, and raises the no-rate error
    otherwise. *)
Theorem module_rate_uses_irx_only w s :
  let run := get_risk_free_rate w s in
  calls (snd run) = calls s ++ [YfDownload "^IRX" (Period "5d")]
  /\ fst run = match irx_value w (length (calls s)) with
               | Some v => Ok (fdiv v (of_int 100))
               | None => Raised no_rate_error
               end
  /\ (forall v, irx_value w (length (calls s)) = Some v ->
                isnan v = false /\ fgt v (of_int 0) = true).
Proof.
  cbv zeta. unfold get_risk_free_rate.
  pose proof (rate_refines_chain production_pipeline w s) as Hchain.
  cbv zeta in Hchain. unfold rate_chain, fred_strategy in Hchain.
  simpl in Hchain. rewrite app_nil_r in Hchain.
  split; [|split].
  - destruct (irx_value w (length (calls s)));
      injection Hchain as _ ->; [reflexivity|apply app_nil_r].
  - destruct (irx_value w (length (calls s)));
      injection Hchain as -> _; reflexivity.
  - apply irx_value_usable.
Qed.

(** X14. Whatever the sources do, the rate chain raises nothing but the
    no-rate error, and it makes at least one and at most three network
    calls. *)
Theorem rate_raises_only_no_rate self w s :
  let run := get_real_time_risk_free_rate self w s in
  (forall e, fst run = Raised e -> e = no_rate_error)
  /\ exists n, (1 <= n <= 3)%nat
       /\ length (calls (snd run)) = (length (calls s) + n)%nat.
Proof.
  cbv zeta.
  pose proof (rate_refines_chain self w s) as Hchain. cbv zeta in Hchain.
  destruct (get_real_time_risk_free_rate self w s) as [r s']. simpl in *.
  unfold rate_chain, fred_strategy in Hchain.
  destruct (configured (fred_api_key self)) as [api_key|]; simpl in Hchain.
  - destruct (fred_value w "DGS3MO" api_key _).
    { injection Hchain as -> ->. split; [discriminate|].
      exists 1%nat. rewrite length_app. simpl. split; lia. }
    destruct (irx_value w _).
    { injection Hchain as -> ->. split; [discriminate|].
      exists 2%nat. rewrite !length_app. simpl. split; lia. }
    destruct (fred_value w "DGS1MO" api_key _); injection Hchain as -> ->.
    + split; [discriminate|].
      exists 3%nat. rewrite !length_app. simpl. split; lia.
    + split; [intros e [= <-]; reflexivity|].
      exists 3%nat. rewrite !length_app. simpl. split; lia.
  - rewrite app_nil_r in Hchain.
    destruct (irx_value w _); injection Hchain as -> ->.
    + split; [discriminate|].
      exists 1%nat. rewrite length_app. simpl. split; lia.
    + split; [intros e [= <-]; reflexivity|].
      exists 1%nat. rewrite app_nil_r, length_app. simpl. split; lia.
Qed.

End RateProperties.

(** ** Properties of the market-data chain *)

Section MarketProperties.

Context {FL : Float64}.

(** X15. The benchmark index wins when its table has at least 50 rows: its
    returns are returned and the proxy is never fetched.  A table of fewer
    than 50 rows is turned down, and the returns of the proxy VTI are
    returned instead, whatever the number of rows of its table: the minimum
    of 50 observations does not apply to the proxy. *)
Theorem market_backup_has_no_minimum self period w s :
  let run := get_real_time_market_data self period w s in
  let s0 := printed s PMarketStart in
  (forall market_data s1,
     _fetch_from_yfinance "^GSPC" period w s0 = (Ok market_data, s1) ->
     (50 <= len market_data)%nat ->
     has_column "Close" market_data = true ->
     run = (Ok (close_returns market_data),
            printed s1 (PMarketFetched (length (close_returns market_data)))))
  /\ (forall market_data s1 vti_data s2,
        _fetch_from_yfinance "^GSPC" period w s0 = (Ok market_data, s1) ->
        (len market_data < 50)%nat ->
        _fetch_from_yfinance "VTI" period w
          (printed (printed s1 (PMarketFailed
                                  (insufficient_market_data (len market_data))))
                   PTryingBackup)
        = (Ok vti_data, s2) ->
        has_column "Close" vti_data = true ->
        run = (Ok (close_returns vti_data),
               printed s2 (PBackupFetched (length (close_returns vti_data))))).
Proof.
  cbv zeta. unfold get_real_time_market_data. split.
  - intros market_data s1 Hfetch Hlen Hclose.
    unfold bind at 1. unfold print at 1. unfold try_except at 1.
    unfold bind at 1. rewrite Hfetch.
    apply Nat.ltb_ge in Hlen. rewrite Hlen.
    unfold bind at 1. unfold getitem at 1. rewrite Hclose. reflexivity.
  - intros market_data s1 vti_data s2 Hfetch Hlen Hvti Hclose.
    unfold bind at 1. unfold print at 1. unfold try_except at 1.
    unfold bind at 1. rewrite Hfetch.
    apply Nat.ltb_lt in Hlen. rewrite Hlen. unfold raise at 1.
    unfold bind at 1. unfold print at 1. unfold try_except at 1.
    unfold bind at 1. unfold print at 1. unfold bind at 1.
    change (str (ValueError ("Insufficient market data: "
                             +:+ pretty (len market_data) +:+ " observations")))
      with (insufficient_market_data (len market_data)).
    rewrite Hvti. unfold bind at 1. unfold getitem at 1. rewrite Hclose.
    reflexivity.
Qed.


(** X17. The market-data chain contacts the series source only: it makes one
    to three downloads of the benchmark index, followed by at most three
    downloads of the proxy, and no other network call. *)
Theorem market_calls_bound self period w s :
  exists k1 k2 q1 q2,
    (1 <= k1 <= 3)%nat /\ (k2 <= 3)%nat
    /\ calls (snd (get_real_time_market_data self period w s))
       = calls s ++ downloads "^GSPC" q1 k1 ++ downloads "VTI" q2 k2.
Proof.
  unfold get_real_time_market_data.
  unfold bind at 1. unfold print at 1. unfold try_except at 1. unfold bind at 1.
  destruct (fetch_calls "^GSPC" period w (printed s PMarketStart))
    as (k1 & Hk1 & Hc1).
  set (q1 := fetch_range period w (printed s PMarketStart)) in *.
  assert (Hbackup : forall e s1,
            calls s1 = calls s ++ downloads "^GSPC" q1 k1 ->
            exists k2 q2,
              (k2 <= 3)%nat
              /\ calls
                   (snd
                      (bind (print (PMarketFailed (str e)))
                         (fun _ =>
                            try_except
                              (bind (print PTryingBackup)
                                 (fun _ =>
                                    bind (_fetch_from_yfinance "VTI" period)
                                      (fun vti_data =>
                                         bind (getitem "Close" vti_data)
                                           (fun closes =>
                                              bind
                                                (print
                                                   (PBackupFetched
                                                      (length
                                                         (series_dropna
                                                            (pct_change closes)))))
                                                (fun _ =>
                                                   ret (series_dropna
                                                          (pct_change closes)))))))
                              (fun backup_error =>
                                 raise
                                   (Exception_
                                      ("❌ CRITICAL: All market data sources failed. Primary: "
                                       +:+ str e +:+ ", Backup: "
                                       +:+ str backup_error))))
                         w s1))
                 = calls s ++ downloads "^GSPC" q1 k1 ++ downloads "VTI" q2 k2).
  { intros e s1 Hs1.
    unfold bind at 1. unfold print at 1. unfold try_except at 1.
    unfold bind at 1. unfold print at 1. unfold bind at 1.
    match goal with
    | |- context [_fetch_from_yfinance "VTI" period w ?st] =>
        destruct (fetch_calls "VTI" period w st) as (k2 & Hk2 & Hc2);
        exists k2, (fetch_range period w st);
        destruct (_fetch_from_yfinance "VTI" period w st) as [[vti|e2] s2]
    end; simpl in Hc2; rewrite Hs1 in Hc2; (split; [lia|]).
    - unfold bind at 1. unfold getitem at 1.
      destruct (has_column "Close" vti); simpl; rewrite Hc2, <- app_assoc;
        reflexivity.
    - simpl. rewrite Hc2, <- app_assoc. reflexivity. }
  destruct (_fetch_from_yfinance "^GSPC" period w (printed s PMarketStart))
    as [[market_data|e1] s1]; simpl in Hc1.
  - destruct (len market_data <? 50)%nat.
    + unfold raise at 1.
      destruct (Hbackup (ValueError ("Insufficient market data: "
                                     +:+ pretty (len market_data)
                                     +:+ " observations")) s1 Hc1)
        as (k2 & q2 & Hk2 & Hcalls).
      exists k1, k2, q1, q2. split; [exact Hk1|]. split; [exact Hk2|exact Hcalls].
    + unfold bind at 1. unfold getitem at 1.
      destruct (has_column "Close" market_data).
      * exists k1, 0%nat, q1, (Period "").
        split; [exact Hk1|]. split; [lia|].
        simpl. rewrite Hc1, app_nil_r. reflexivity.
      * unfold raise at 1.
        destruct (Hbackup (KeyError "Close") s1 Hc1) as (k2 & q2 & Hk2 & Hcalls).
        exists k1, k2, q1, q2. split; [exact Hk1|]. split; [exact Hk2|exact Hcalls].
  - destruct (Hbackup e1 s1 Hc1) as (k2 & q2 & Hk2 & Hcalls).
    exists k1, k2, q1, q2. split; [exact Hk1|]. split; [exact Hk2|exact Hcalls].
Qed.

End MarketProperties.

(** ** Properties of the health monitor *)

Section HealthProperties.

Context {FL : Float64}.

(** The sample probe never raises.  When the batch raises, its status is the
    rendering of the no-data error; otherwise every probe ticker is listed,
    as healthy when it was fetched and as failed when it was not. *)
Lemma test_sample_data_run self w s :
  exists quality s',
    test_sample_data self w s = (Ok quality, s')
    /\ match quality with
       | inl entries =>
           map fst entries = sample_tickers
           /\ Forall (fun kv => snd kv = healthy \/ snd kv = failed) entries
           /\ Exists (fun kv => snd kv = healthy) entries
       | inr text => text = error_status no_data_error
       end.
Proof.
  unfold test_sample_data, try_except. unfold bind at 1.
  rewrite fetch_after_loop.
  destruct (fetch_loop_total sample_tickers "1mo" true ∅ [] w
              (printed s (PFetching sample_tickers)))
    as (m & g & s1 & Hloop & _ & Hdom & _ & _).
  rewrite Hloop.
  assert (Hrows : forall t d, m !! t = Some d -> complete d).
  { apply (fetch_loop_invariant (fun _ d => complete d) "1mo" true
             (fun t w0 s0 d s0' H =>
                proj1 (fetch_validated_ok t "1mo" true w0 s0 d s0' H))
             sample_tickers ∅ [] w (printed s (PFetching sample_tickers))
             m ([] ++ g) s1); [|exact Hloop].
    intros t d Hlookup. rewrite lookup_empty in Hlookup. discriminate. }
  assert (Hstatus : forall t,
            sample_quality m t = healthy /\ is_Some (m !! t)
            \/ sample_quality m t = failed /\ m !! t = None).
  { intros t. unfold sample_quality.
    destruct (m !! t) as [d|] eqn:Hlookup; [left|right; auto].
    destruct (Hrows t d Hlookup) as [Hlen _].
    assert (H15 : (15 <? len d)%nat = true) by (apply Nat.ltb_lt; lia).
    rewrite H15. eauto. }
  destruct (size m =? 0)%nat eqn:Hsize.
  - eexists _, _. split; [reflexivity|reflexivity].
  - assert (Hquality :
              map fst (map (fun ticker => (ticker, sample_quality m ticker))
                         sample_tickers) = sample_tickers
              /\ Forall (fun kv => snd kv = healthy \/ snd kv = failed)
                   (map (fun ticker => (ticker, sample_quality m ticker))
                      sample_tickers)
              /\ Exists (fun kv => snd kv = healthy)
                   (map (fun ticker => (ticker, sample_quality m ticker))
                      sample_tickers)).
    { split; [reflexivity|]. split.
      - apply Forall_map, Forall_forall. intros t _. simpl.
        destruct (Hstatus t) as [[-> _]|[-> _]]; auto.
      - apply Nat.eqb_neq in Hsize.
        apply map_size_non_empty_iff, map_choose in Hsize as (t & d & Hlookup).
        assert (Ht : t ∈ sample_tickers).
        { assert (t ∈ dom m) by (apply elem_of_dom; eauto). set_solver. }
        apply Exists_exists. exists (t, sample_quality m t). split.
        + apply list_elem_of_fmap. exists t. auto.
        + simpl. destruct (Hstatus t) as [[-> _]|[_ Hnone]]; [reflexivity|].
          congruence. }
    cbn [app]. destruct g; eexists _, _; (split; [reflexivity|exact Hquality]).
Qed.

(** X18. In the report of the health check, the entry for the sample
    portfolio is either the rendering of the no-data error of the batch, or
    the three probe tickers in order, each HEALTHY or FAILED and at least one
    HEALTHY.  The status LIMITED DATA is never reported: a table that the
    batch returns has at least 20 rows, which is above the 15 that the status
    asks about. *)
Theorem sample_quality_never_limited self w s :
  exists report s',
    system_health_check self w s = (Ok report, s')
    /\ match sample_data_quality report with
       | inl entries =>
           map fst entries = sample_tickers
           /\ Forall (fun kv => snd kv = healthy \/ snd kv = failed) entries
           /\ Exists (fun kv => snd kv = healthy) entries
       | inr text => text = error_status no_data_error
       end.
Proof.
  unfold system_health_check.
  unfold bind at 1. unfold print at 1. unfold bind at 1. unfold now at 1.
  erewrite bind_ok by apply test_yfinance_run.
  match goal with
  | |- context [bind (test_fred self) _ w ?st] =>
      destruct (test_fred_run self w st) as [s2 Hfred]
  end.
  erewrite bind_ok by exact Hfred.
  destruct (try_except_ret _ _ w s2 : exists a s', test_risk_free_rate self w s2 = _)
    as (rate & s3 & Hrate).
  erewrite bind_ok by exact Hrate.
  destruct (try_except_ret _ _ w s3 : exists a s', test_market_data self w s3 = _)
    as (market & s4 & Hmarket).
  erewrite bind_ok by exact Hmarket.
  destruct (test_sample_data_run self w s4) as (quality & s5 & Hsample & Hquality).
  erewrite bind_ok by exact Hsample.
  eexists _, _. split; [reflexivity|exact Hquality].
Qed.

End HealthProperties.

(** ** The further properties, on doubles *)

Section MoreOnDoubles.

Local Existing Instance Binary64.ops.

Lemma nonpositive_close_rejected_witness :
  _validate_data_quality (Some zero_close_table) "AAA" batch_world start
  = (Ok false, printed start (PInvalidPrices "AAA")).
Proof.
  apply (nonpositive_close_rejected (FL := Binary64.ops) zero_close_table "AAA"
           batch_world start 0%float).
  - reflexivity.
  - vm_compute. lia.
  - reflexivity.
  - reflexivity.
  - vm_compute. do 3 right. left. reflexivity.
  - reflexivity.
  - reflexivity.
Defined.

Lemma table_without_close_accepted_witness :
  fst (_validate_data_quality (Some no_close_table) "AAA" batch_world start)
  = Ok true.
Proof.
  apply (table_without_close_accepted no_close_table "AAA" batch_world start).
  - reflexivity.
  - vm_compute. lia.
  - reflexivity.
  - reflexivity.
Defined.

Lemma flat_table_passes ticker : passes_hard_checks (flat_table 25) ticker.
Proof.
  split; [reflexivity|]. split; [vm_compute; lia|]. split; reflexivity.
Defined.

Lemma stale_table_accepted_witness :
  _validate_data_quality (Some (flat_table 25)) "AAA" late_world start
  = (Ok true, mkState [] 1 [PStale "AAA" 16; PValidated "AAA"]).
Proof.
  apply (stale_table_accepted (flat_table 25) "AAA" late_world start (day 24)).
  - apply flat_table_passes.
  - reflexivity.
Defined.

Lemma rejection_prints_one_reason_witness :
  exists reason,
    In reason (rejection_reasons (flat_table 5) "AAA")
    /\ _validate_data_quality (Some (flat_table 5)) "AAA" batch_world start
       = (Ok false, printed start reason).
Proof.
  apply (rejection_prints_one_reason (flat_table 5) "AAA" batch_world start).
  reflexivity.
Defined.

Lemma fetch_returns_complete_table_witness : complete (dropna (flat_table 25)).
Proof.
  eapply (proj1 (fetch_returns_complete_table "AAA" "1y" (flaky_world 2) start
                   (dropna (flat_table 25)) _ _)).
  Unshelve. 2: vm_compute; reflexivity.
Defined.

Lemma fetch_first_answer_wins_witness :
  _fetch_from_yfinance "AAA" "1y" late_world start
  = (Ok (dropna (flat_table 25)),
     mkState [YfDownload "AAA" (fetch_range "1y" late_world start)] 2
       [PDataOld "AAA" 16]).
Proof.
  apply (fetch_first_answer_wins "AAA" "1y" late_world start
           (dropna (flat_table 25)) (day 24)); reflexivity.
Defined.

Lemma empty_answers_exhaust_retries_witness :
  fst (_fetch_from_yfinance "AAA" "1y" empty_answers_world start)
  = Raised (ValueError "No data returned for AAA").
Proof.
  rewrite (empty_answers_exhaust_retries "AAA" "1y" empty_answers_world start);
    [reflexivity|].
  intros i _. eexists. split; reflexivity.
Defined.

Lemma batch_returns_checked_tables_witness :
  complete (dropna (flat_table 25))
  /\ (true = true -> passes_hard_checks (dropna (flat_table 25)) "AAA").
Proof.
  eapply (batch_returns_checked_tables no_keys (Tickers ["AAA"; "BBB"; "CCC"])
            "1y" true batch_world start _ _ _ "AAA" (dropna (flat_table 25)) _).
  Unshelve. 3: vm_compute; reflexivity. vm_compute; reflexivity.
Defined.

Lemma batch_of_failures_raises_witness :
  fst (fetch_real_time_stock_data no_keys (Tickers ["AAA"; "BBB"]) "1y" true
         down_world start) = Raised no_data_error
  /\ length (calls (snd (fetch_real_time_stock_data no_keys
                           (Tickers ["AAA"; "BBB"]) "1y" true down_world start)))
     = 6%nat.
Proof.
  apply (batch_of_failures_raises no_keys ["AAA"; "BBB"] "1y" true down_world
           start).
  intros n ticker q. eexists. reflexivity.
Defined.

Lemma batch_of_successes_returns_all_witness :
  exists all_data s',
    fetch_real_time_stock_data no_keys (Tickers ["AAA"; "BBB"]) "1y" true
      steady_world start
    = (Ok all_data, s')
    /\ dom all_data = list_to_set ["AAA"; "BBB"]
    /\ length (calls s') = 2%nat.
Proof.
  apply (batch_of_successes_returns_all no_keys ["AAA"; "BBB"] "1y" true
           steady_world start).
  - intros n ticker q. exists (dropna (flat_table 25)).
    split; [reflexivity|].
    split; [reflexivity|]. split; [vm_compute; lia|]. split; reflexivity.
  - discriminate.
Defined.

Lemma fred_returns_first_value_witness :
  _fetch_from_fred with_fred_key "DGS3MO" 10
    (fred_world [Dot; Dot; Number 4.5%float; Malformed "n/a"]) start
  = (Ok (Some 4.5%float), mkState [FredGet "DGS3MO" "KEY" 10] 0 []).
Proof.
  apply (proj1 (proj2 (fred_returns_first_value (FL := Binary64.ops)
                         with_fred_key "DGS3MO" 10
                         (fred_world [Dot; Dot;
                                      Number (FL := Binary64.ops) 4.5%float;
                                      Malformed "n/a"])
                         start))
           "KEY" 2%nat 4.5%float [Malformed "n/a"]); reflexivity.
Defined.

Lemma module_rate_uses_irx_only_witness :
  isnan 4.5%float = false /\ fgt 4.5%float (of_int 0) = true.
Proof.
  apply (proj2 (proj2 (module_rate_uses_irx_only irx_world start))). reflexivity.
Defined.

Lemma rate_raises_only_no_rate_witness :
  exists e,
    fst (get_real_time_risk_free_rate no_keys down_world start) = Raised e
    /\ e = no_rate_error.
Proof.
  eexists. split; [reflexivity|].
  apply (proj1 (rate_raises_only_no_rate no_keys down_world start)). reflexivity.
Defined.

Lemma market_backup_has_no_minimum_witness :
  fst (get_real_time_market_data no_keys "1y" steady_world start)
  = Ok (close_returns (dropna (flat_table 25)))
  /\ length (close_returns (dropna (flat_table 25))) = 24%nat.
Proof.
  split; [|reflexivity].
  erewrite (proj2 (market_backup_has_no_minimum no_keys "1y" steady_world start)
              (dropna (flat_table 25)) _ (dropna (flat_table 25)) _).
  - reflexivity.
  - vm_compute. reflexivity.
  - vm_compute. lia.
  - vm_compute. reflexivity.
  - reflexivity.
Defined.


End MoreOnDoubles.
